(** * Outfit-to-wardrobe matching engine of the outfit service.

    Shallow embedding of
    [ml-backend/services/outfitAnalyzer/src/code/outfit_with_wardrobe.py]
    of the outfit selection step of [outfit_service.py], and of the
    error responses of the [/analyze] endpoint of [app.py].

    Modelling conventions:
    - a Python [str] is an ASCII [string]; [Optional[str]] is [option string];
    - a key of a Python dict that may be absent is [option v]:
      [None] is a missing key, [Some v] a present one;
    - Python numbers in the scores are exact rationals [Q];
    - exceptions raised by the code are the [Err] case of [result]. *)

From Stdlib Require Import String Ascii List Bool Arith ZArith QArith Lia Lqa Permutation.
Import ListNotations.
Open Scope nat_scope.

(* ------------------------------------------------------------------ *)
(** ** Exceptions and results *)

(** The exceptions raised on the paths modelled here. The two built-in
    errors are kept without their text, which depends on the Python
    version: [StrIndicesError] is the [TypeError] of indexing a [str]
    with a [str], [MaxEmptyError] the [ValueError] of [max] on an empty
    sequence. *)
Inductive exn : Type :=
  | KeyError (key : string)
  | StrIndicesError
  | MaxEmptyError
  | BadRequestError (error message : string).

Inductive result (A : Type) : Type :=
  | Ok (a : A)
  | Err (e : exn).
Arguments Ok {A} a.
Arguments Err {A} e.

Definition bind {A B} (r : result A) (k : A -> result B) : result B :=
  match r with
  | Ok a => k a
  | Err e => Err e
  end.

Notation "x <- r ;; k" := (bind r (fun x => k))
  (at level 61, r at next level, right associativity).

(* ------------------------------------------------------------------ *)
(** ** [normalize] *)

(** Python truthiness of an [Optional[str]]: [None] and [""] are falsy. *)
Definition truthy (t : option string) : bool :=
  match t with
  | None => false
  | Some EmptyString => false
  | Some _ => true
  end.

(** [str.lower] on ASCII characters. *)
Definition lower_char (c : ascii) : ascii :=
  let n := nat_of_ascii c in
  if (65 <=? n) && (n <=? 90) then ascii_of_nat (n + 32) else c.

Fixpoint lower (s : string) : string :=
  match s with
  | EmptyString => EmptyString
  | String c r => String (lower_char c) (lower r)
  end.

(** The character class [[a-z0-9]]. *)
Definition is_alnum_lower (c : ascii) : bool :=
  let n := nat_of_ascii c in
  ((97 <=? n) && (n <=? 122)) || ((48 <=? n) && (n <=? 57)).

(** [re.sub(r"[^a-z0-9]", "", s)]. *)
Fixpoint strip_non_alnum (s : string) : string :=
  match s with
  | EmptyString => EmptyString
  | String c r =>
      if is_alnum_lower c then String c (strip_non_alnum r) else strip_non_alnum r
  end.

(** [normalize(text)]: [if not text: return ""], else lowercase and strip. *)
Definition normalize (text : option string) : string :=
  if truthy text then
    match text with
    | Some s => strip_non_alnum (lower s)
    | None => EmptyString
    end
  else EmptyString.

(* ------------------------------------------------------------------ *)
(** ** [difflib.SequenceMatcher(None, a, b).ratio()] *)

Module SequenceMatcher.

(** [b2j]: positions of each element in [b]; with [autojunk] (the default)
    and [len(b) >= 200], elements occurring more than [len(b) // 100 + 1]
    times are "popular" and removed. [isjunk] is [None], so [bjunk] is
    empty. *)
Fixpoint positions_from (c : ascii) (b : list ascii) (i : nat) : list nat :=
  match b with
  | [] => []
  | x :: r =>
      if Ascii.eqb x c then i :: positions_from c r (S i) else positions_from c r (S i)
  end.

Definition b2j_get (b : list ascii) (c : ascii) : list nat :=
  let n := length b in
  let idxs := positions_from c b 0 in
  if (200 <=? n) && (n / 100 + 1 <? length idxs) then [] else idxs.

Fixpoint assoc_get (m : list (nat * nat)) (k : nat) : option nat :=
  match m with
  | [] => None
  | (k', v) :: r => if k =? k' then Some v else assoc_get r k
  end.

(** The inner loop of [find_longest_match] over [b2j.get(a[i])]:
    state [(besti, bestj, bestsize)] and the dict [newj2len]. *)
Fixpoint inner (i blo bhi : nat) (j2len : list (nat * nat)) (js : list nat)
    (best : nat * nat * nat) (newj2len : list (nat * nat))
    : (nat * nat * nat) * list (nat * nat) :=
  match js with
  | [] => (best, newj2len)
  | j :: js' =>
      if j <? blo then inner i blo bhi j2len js' best newj2len
      else if bhi <=? j then (best, newj2len)
      else
        let k := (match j with
                  | 0 => 0                      (* j2len.get(-1, 0) *)
                  | S jm1 => match assoc_get j2len jm1 with Some v => v | None => 0 end
                  end) + 1 in
        let newj2len' := (j, k) :: newj2len in
        let '(_, _, bestsize) := best in
        if bestsize <? k then inner i blo bhi j2len js' (i + 1 - k, j + 1 - k, k) newj2len'
        else inner i blo bhi j2len js' best newj2len'
  end.

(** The outer loop [for i in range(alo, ahi)]. *)
Fixpoint outer (a b : list ascii) (i n blo bhi : nat) (j2len : list (nat * nat))
    (best : nat * nat * nat) : nat * nat * nat :=
  match n with
  | 0 => best
  | S n' =>
      let js := b2j_get b (nth i a "000"%char) in
      let '(best', newj2len) := inner i blo bhi j2len js best [] in
      outer a b (S i) n' blo bhi newj2len best'
  end.

Definition at_ (l : list ascii) (i : nat) : ascii := nth i l "000"%char.

(** [while besti > alo and bestj > blo and a[besti-1] == b[bestj-1]]. *)
Fixpoint extend_left (a b : list ascii) (alo blo fuel : nat) (best : nat * nat * nat)
    : nat * nat * nat :=
  match fuel with
  | 0 => best
  | S f =>
      let '(besti, bestj, bestsize) := best in
      if (alo <? besti) && (blo <? bestj)
         && Ascii.eqb (at_ a (besti - 1)) (at_ b (bestj - 1))
      then extend_left a b alo blo f (besti - 1, bestj - 1, bestsize + 1)
      else best
  end.

(** [while besti+bestsize < ahi and bestj+bestsize < bhi and
    a[besti+bestsize] == b[bestj+bestsize]]. *)
Fixpoint extend_right (a b : list ascii) (ahi bhi fuel : nat) (best : nat * nat * nat)
    : nat * nat * nat :=
  match fuel with
  | 0 => best
  | S f =>
      let '(besti, bestj, bestsize) := best in
      if (besti + bestsize <? ahi) && (bestj + bestsize <? bhi)
         && Ascii.eqb (at_ a (besti + bestsize)) (at_ b (bestj + bestsize))
      then extend_right a b ahi bhi f (besti, bestj, bestsize + 1)
      else best
  end.

(** [find_longest_match(alo, ahi, blo, bhi)]; the two loops that extend
    over junk elements never run since [bjunk] is empty. Each extension loop
    runs at most [ahi - alo] times, which is its fuel. *)
Definition find_longest_match (a b : list ascii) (alo ahi blo bhi : nat)
    : nat * nat * nat :=
  let best := outer a b alo (ahi - alo) blo bhi [] (alo, blo, 0) in
  let best := extend_left a b alo blo (ahi - alo) best in
  extend_right a b ahi bhi (ahi - alo) best.

(** Sum of the sizes of the blocks found by [get_matching_blocks]: the
    queue of sub-ranges is processed recursively; the order in which the
    blocks are found (and the final sort and merge of adjacent blocks) does
    not change the sum of their sizes. *)
Fixpoint matches_in (a b : list ascii) (fuel alo ahi blo bhi : nat) : nat :=
  match fuel with
  | 0 => 0
  | S f =>
      let '(i, j, k) := find_longest_match a b alo ahi blo bhi in
      match k with
      | 0 => 0
      | _ =>
          k
          + (if (alo <? i) && (blo <? j) then matches_in a b f alo i blo j else 0)
          + (if (i + k <? ahi) && (j + k <? bhi)
             then matches_in a b f (i + k) ahi (j + k) bhi else 0)
      end
  end.

Definition matches (a b : list ascii) : nat :=
  matches_in a b (S (length a)) 0 (length a) 0 (length b).

(** [_calculate_ratio(matches, length)]: [1.0] when [length] is 0. *)
Definition calculate_ratio (m len : nat) : Q :=
  match len with
  | 0 => 1
  | _ => inject_Z (Z.of_nat (2 * m)) / inject_Z (Z.of_nat len)
  end.

Definition ratio (a b : string) : Q :=
  let la := list_ascii_of_string a in
  let lb := list_ascii_of_string b in
  calculate_ratio (matches la lb) (length la + length lb).

End SequenceMatcher.

(** [get_text_similarity(text1, text2)]. *)
Definition get_text_similarity (text1 text2 : option string) : Q :=
  if negb (truthy text1) || negb (truthy text2) then 0
  else SequenceMatcher.ratio (normalize text1) (normalize text2).

(* ------------------------------------------------------------------ *)
(** ** Data model *)

(** [class WardrobeItem(BaseModel)]. *)
Record WardrobeItem : Type := {
  item_id : string;
  type : string;
  color : option string;
  pattern : option string;
  fabric : option string;
  description : option string;
  brand : option string;
  image_url : option string;
  created_at : option Z
}.

(** A suggested clothing item: the JSON dict produced by the suggestion
    step. Each field is [None] when the key is absent, [Some None] when
    its value is [null], and [Some (Some s)] for a string. *)
Record SuggestedItem : Type := {
  s_type : option (option string);
  s_category : option (option string);
  s_color : option (option string);
  s_pattern : option (option string);
  s_fabric : option (option string);
  s_description : option (option string)
}.

(** [d.get(key, default)]. *)
Definition get (v : option (option string)) (default : option string) : option string :=
  match v with
  | Some x => x
  | None => default
  end.

(** [d[key]]: [KeyError] when the key is absent. *)
Definition getitem (key : string) (v : option (option string)) : result (option string) :=
  match v with
  | Some x => Ok x
  | None => Err (KeyError key)
  end.

(** [x in y] for strings. *)
Fixpoint contains (needle hay : string) : bool :=
  String.prefix needle hay ||
  match hay with
  | EmptyString => false
  | String _ r => contains needle r
  end.

(* ------------------------------------------------------------------ *)
(** ** [get_match_score] *)

Open Scope Q_scope.

Definition get_match_score (summary_item : SuggestedItem) (wardrobe_item : WardrobeItem) : Q :=
  let summary_type := get (s_type summary_item) (get (s_category summary_item) (Some ""%string)) in
  if negb (String.eqb (normalize (Some (type wardrobe_item))) (normalize summary_type))
  then -1
  else
    let score := 1 in
    let score :=
      if String.eqb (normalize (color wardrobe_item)) (normalize (get (s_color summary_item) (Some ""%string)))
      then score + 2 else score in
    let score :=
      if String.eqb (normalize (pattern wardrobe_item)) (normalize (get (s_pattern summary_item) (Some ""%string)))
      then score + 4 else score in
    let mat1 := normalize (fabric wardrobe_item) in
    let mat2 := normalize (get (s_fabric summary_item) (Some ""%string)) in
    let score :=
      if truthy (Some mat1) && truthy (Some mat2) && (contains mat1 mat2 || contains mat2 mat1)
      then score + 3 else score in
    let desc_similarity :=
      get_text_similarity (description wardrobe_item) (get (s_description summary_item) (Some ""%string)) in
    score + desc_similarity * (3 # 2).

(* ------------------------------------------------------------------ *)
(** ** [find_best_match] *)

(** [for matched_item in matching_set_items: ...]: the penalty for
    descriptions very similar to an item already in the matching set. *)
Fixpoint penalize (item : WardrobeItem) (matching_set_items : list WardrobeItem) (score : Q) : Q :=
  match matching_set_items with
  | [] => score
  | matched_item :: rest =>
      let desc_similarity := get_text_similarity (description item) (description matched_item) in
      let score := if Qlt_le_dec (7 # 10) desc_similarity then score - desc_similarity * 2 else score in
      penalize item rest score
  end.

(** Lines 94-107 of the loop body: the score of a same-type candidate,
    lowered by [penalize] when the matching set is non-empty and the score
    is positive. *)
Definition candidate_score (suggested_item : SuggestedItem)
    (matching_set_items : list WardrobeItem) (item : WardrobeItem) : Q :=
  let score := get_match_score suggested_item item in
  match matching_set_items with
  | [] => score
  | _ :: _ => if Qlt_le_dec 0 score then penalize item matching_set_items score else score
  end.

(** The loop over [wardrobe_items], with the loop state
    [(best_item, highest_score)]. *)
Fixpoint find_best_match_loop (suggested_item : SuggestedItem) (wardrobe_items : list WardrobeItem)
    (used_items : list string) (matching_set_items : list WardrobeItem)
    (best_item : option WardrobeItem) (highest_score : Q)
    : result (option WardrobeItem * Q) :=
  match wardrobe_items with
  | [] => Ok (best_item, highest_score)
  | item :: rest =>
      if negb (existsb (String.eqb (item_id item)) used_items) then
        suggested_type <- getitem "type"%string (s_type suggested_item) ;;
        if String.eqb (normalize (Some (type item))) (normalize suggested_type) then
          let score := candidate_score suggested_item matching_set_items item in
          if Qlt_le_dec highest_score score
          then find_best_match_loop suggested_item rest used_items matching_set_items (Some item) score
          else find_best_match_loop suggested_item rest used_items matching_set_items best_item highest_score
        else find_best_match_loop suggested_item rest used_items matching_set_items best_item highest_score
      else find_best_match_loop suggested_item rest used_items matching_set_items best_item highest_score
  end.

Definition find_best_match (suggested_item : SuggestedItem) (wardrobe_items : list WardrobeItem)
    (used_items : list string) (matching_set_items : list WardrobeItem)
    : result (option WardrobeItem * Q) :=
  find_best_match_loop suggested_item wardrobe_items used_items matching_set_items None (-1).

(* ------------------------------------------------------------------ *)
(** ** [match_outfit_with_wardrobe] *)

(** The ["suggestion"] dict echoed in every match entry:
    [item.get(key, "")] for each of its five keys. *)
Record Suggestion : Type := {
  sg_type : option string;
  sg_description : option string;
  sg_color : option string;
  sg_fabric : option string;
  sg_pattern : option string
}.

(** A match entry of [matched_items]. The keys ["color"] and ["fabric"]
    exist only in the entries of matched slots ([None] = key absent). *)
Record MatchResult : Type := {
  mr_item_id : option string;
  mr_description : option string;
  mr_type : option string;
  mr_color : option (option string);
  mr_fabric : option (option string);
  mr_score : Q;
  mr_suggestion : Suggestion
}.

Record OutfitMatchResult : Type := {
  outfit_name_r : option string;
  total_score : Q;
  matched_items : list MatchResult
}.

(** A candidate outfit of ["outfit_recommendations"]; [None] for an absent
    key. *)
Record CandidateOutfit : Type := {
  outfit_name : option (option string);
  clothing_items : option (list SuggestedItem)
}.

(** The parsed suggestion dict: its ["outfit_recommendations"] key, and
    whether it has other keys (only its truthiness depends on them). The
    model covers suggestions whose ["outfit_recommendations"], when
    present, is a list of dicts, whose ["clothing_items"], when present,
    is a list of dicts with string or [null] values. *)
Record OutfitSuggestion : Type := {
  outfit_recommendations : option (list CandidateOutfit);
  has_other_keys : bool
}.

(** The value returned by [match_outfit_with_wardrobe]: either the
    ["error"] dict or the list [outfit_matches]. *)
Inductive MatchOutput : Type :=
  | ErrorDict (error : string)
  | Matches (outfit_matches : list OutfitMatchResult).

Definition suggestion_of (item : SuggestedItem) : Suggestion := {|
  sg_type := get (s_type item) (Some ""%string);
  sg_description := get (s_description item) (Some ""%string);
  sg_color := get (s_color item) (Some ""%string);
  sg_fabric := get (s_fabric item) (Some ""%string);
  sg_pattern := get (s_pattern item) (Some ""%string)
|}.

Definition matched_entry (best_match : WardrobeItem) (score : Q) (item : SuggestedItem) : MatchResult := {|
  mr_item_id := Some (item_id best_match);
  mr_description := description best_match;
  mr_type := Some (type best_match);
  mr_color := Some (color best_match);
  mr_fabric := Some (fabric best_match);
  mr_score := score;
  mr_suggestion := suggestion_of item
|}.

Definition no_match_entry (item : SuggestedItem) : MatchResult := {|
  mr_item_id := None;
  mr_description := Some "No match found"%string;
  mr_type := get (s_type item) (Some ""%string);
  mr_color := None;
  mr_fabric := None;
  mr_score := -1;
  mr_suggestion := suggestion_of item
|}.

(** The loop [for item in clothing_items] of one outfit, with its state
    [matched_items], [matched_items_objects], [total_score] and the shared
    set [used_items] (a list; [set.add] appends). *)
Fixpoint match_items (clothing_items : list SuggestedItem) (wardrobe : list WardrobeItem)
    (used_items : list string) (matched_items_objects : list WardrobeItem)
    (matched_items : list MatchResult) (total_score : Q)
    : result (list MatchResult * list string * Q) :=
  match clothing_items with
  | [] => Ok (matched_items, used_items, total_score)
  | item :: rest =>
      r <- find_best_match item wardrobe used_items matched_items_objects ;;
      let '(best_match, score) := r in
      match best_match with
      | Some bm =>
          match_items rest wardrobe (used_items ++ [item_id bm])
            (matched_items_objects ++ [bm])
            (matched_items ++ [matched_entry bm score item])
            (total_score + score)
      | None =>
          match_items rest wardrobe used_items matched_items_objects
            (matched_items ++ [no_match_entry item]) total_score
      end
  end.

(** The loop [for outfit in outfit_suggestion["outfit_recommendations"]]. *)
Fixpoint match_outfits (outfits : list CandidateOutfit) (wardrobe : list WardrobeItem)
    (used_items : list string) (outfit_matches : list OutfitMatchResult)
    : result MatchOutput :=
  match outfits with
  | [] => Ok (Matches outfit_matches)
  | outfit :: rest =>
      match clothing_items outfit with
      | None => Ok (ErrorDict "No clothing items in outfit suggestion"%string)
      | Some items =>
          name <- getitem "outfit_name"%string (outfit_name outfit) ;;
          r <- match_items items wardrobe used_items [] [] 0 ;;
          let '(matched, used_items', total) := r in
          match_outfits rest wardrobe used_items'
            (outfit_matches ++ [{| outfit_name_r := name; total_score := total;
                                   matched_items := matched |}])
      end
  end.

Definition match_outfit_with_wardrobe (outfit_suggestion : OutfitSuggestion)
    (wardrobe : list WardrobeItem) : result MatchOutput :=
  match outfit_recommendations outfit_suggestion with
  | None => Ok (ErrorDict "Invalid outfit suggestion format"%string)
  | Some outfits => match_outfits outfits wardrobe [] []
  end.

(* ------------------------------------------------------------------ *)
(** ** Outfit selection in [generate_outfit_recommendation] *)

Record Recommendation : Type := {
  user_id : string;
  occasion : string;
  outfit : list WardrobeItem
}.

(** Python truthiness of the suggestion dict: it is empty when it has
    neither ["outfit_recommendations"] nor any other key. *)
Definition suggestion_truthy (s : OutfitSuggestion) : bool :=
  match outfit_recommendations s with
  | Some _ => true
  | None => has_other_keys s
  end.

(** [max(outfit_matches, key=lambda x: x["total_score"])] on a non-empty
    list: the first element with the greatest key ([>] keeps the first). *)
Fixpoint max_total (best : OutfitMatchResult) (rest : list OutfitMatchResult) : OutfitMatchResult :=
  match rest with
  | [] => best
  | x :: r => if Qlt_le_dec (total_score best) (total_score x) then max_total x r else max_total best r
  end.

(** [max] over the value returned by the matcher: iterating the error dict
    yields its key ["error"], and indexing that string by ["total_score"]
    raises [TypeError]; an empty list raises [ValueError]. *)
Definition highest_score_outfit (outfit_matches : MatchOutput) : result OutfitMatchResult :=
  match outfit_matches with
  | ErrorDict _ => Err StrIndicesError
  | Matches [] => Err MaxEmptyError
  | Matches (x :: r) => Ok (max_total x r)
  end.

Definition opt_string_eqb (a b : option string) : bool :=
  match a, b with
  | Some x, Some y => String.eqb x y
  | None, None => true
  | _, _ => false
  end.

(** Steps 2 (the check of the parsed suggestion) to 4 of
    [generate_outfit_recommendation]: the suggestion is the parsed output
    of the external search and language-model steps. *)
Definition recommend_from_suggestion (uid occ : string) (outfit_suggestion : OutfitSuggestion)
    (wardrobe_items : list WardrobeItem) : result Recommendation :=
  if negb (suggestion_truthy outfit_suggestion)
  then Err (BadRequestError "outfit_suggestion" "Failed to generate outfit suggestion")
  else
    outfit_matches <- match_outfit_with_wardrobe outfit_suggestion wardrobe_items ;;
    best <- highest_score_outfit outfit_matches ;;
    let best_item_ids := map mr_item_id (matched_items best) in
    let best_items :=
      filter (fun item => existsb (opt_string_eqb (Some (item_id item))) best_item_ids)
        wardrobe_items in
    Ok {| user_id := uid; occasion := occ; outfit := best_items |}.

(* ------------------------------------------------------------------ *)
(** ** The [/analyze] endpoint of [app.py] *)

(** The texts of the built-in errors of the interpreter running the
    service. *)
Record builtin_messages : Type := {
  str_indices_msg : string;
  max_empty_msg : string
}.

Definition python_3_10 : builtin_messages := {|
  str_indices_msg := "string indices must be integers";
  max_empty_msg := "max() arg is an empty sequence"
|}.

Definition python_3_11 : builtin_messages := {|
  str_indices_msg := "string indices must be integers, not 'str'";
  max_empty_msg := "max() arg is an empty sequence"
|}.

(** [str(e)] of the exceptions that reach the endpoint. *)
Definition exn_str (msgs : builtin_messages) (e : exn) : string :=
  match e with
  | KeyError k => String "'" (k ++ "'")
  | StrIndicesError => str_indices_msg msgs
  | MaxEmptyError => max_empty_msg msgs
  | BadRequestError _ m => m
  end.

(** The JSON response: the recommendation, or the [to_dict()] of an
    [HTTPError] with its status code. *)
Inductive HttpResponse : Type :=
  | Response200 (r : Recommendation)
  | ErrorResponse (status_code : nat) (error message : string).

(** [recommend_outfit]: an [HTTPError] is re-raised and rendered by
    [http_exception_handler]; any other exception becomes
    [ServerError("recommend_outfit", ...)], status 500, whose message
    holds [str(e)] in the wording [msgs] of the running interpreter. The external steps
    before the matcher are assumed to have produced [outfit_suggestion]. *)
Definition recommend_outfit (msgs : builtin_messages) (uid occ : string) (outfit_suggestion : OutfitSuggestion)
    (wardrobe : list WardrobeItem) : HttpResponse :=
  match recommend_from_suggestion uid occ outfit_suggestion wardrobe with
  | Ok r => Response200 r
  | Err (BadRequestError error message) => ErrorResponse 400 error message
  | Err e => ErrorResponse 500 "recommend_outfit"
               ("Error generating outfit recommendation: " ++ exn_str msgs e)
  end.

(* ------------------------------------------------------------------ *)
(** ** Sample inputs *)

Module Samples.

Local Open Scope string_scope.

Definition wardrobe_item (id ty : string) (col pat fab desc : option string) : WardrobeItem := {|
  item_id := id; type := ty; color := col; pattern := pat; fabric := fab;
  description := desc; brand := None; image_url := None; created_at := None
|}.

(** A suggested item with the given ["type"] key and optional keys. *)
Definition slot (ty : string) (col pat fab desc : option (option string)) : SuggestedItem := {|
  s_type := Some (Some ty); s_category := None; s_color := col; s_pattern := pat;
  s_fabric := fab; s_description := desc
|}.

Definition top_slot : SuggestedItem := slot "top" None None None None.

Definition white_top : WardrobeItem := wardrobe_item "A" "top" None None None None.

Definition one_outfit (name : string) (items : list SuggestedItem) : CandidateOutfit :=
  {| outfit_name := Some (Some name); clothing_items := Some items |}.

Definition suggestion (outfits : list CandidateOutfit) : OutfitSuggestion :=
  {| outfit_recommendations := Some outfits; has_other_keys := false |}.

(** Three items with the same description ["plain cotton"]: a top, a
    bottom, and red striped shoes. *)
Definition plain_top : WardrobeItem :=
  wardrobe_item "a" "top" None None None (Some "plain cotton").
Definition plain_bottom : WardrobeItem :=
  wardrobe_item "b" "bottom" None None None (Some "plain cotton").
Definition plain_shoes : WardrobeItem :=
  wardrobe_item "c" "shoes" (Some "red") (Some "striped") None (Some "plain cotton").

Definition three_slots : list SuggestedItem :=
  [slot "top" None None None None; slot "bottom" None None None None;
   slot "shoes" (Some (Some "blue")) None None None].

(** A slot with a ["category"] key and no ["type"] key. *)
Definition category_only_slot : SuggestedItem := {|
  s_type := None; s_category := Some (Some "top"); s_color := None; s_pattern := None;
  s_fabric := None; s_description := None
|}.

End Samples.

(* ------------------------------------------------------------------ *)
(** ** Observations on the results *)

(** The wardrobe ids of the matched entries: one id per matched slot. *)
Definition entry_ids (m : MatchResult) : list string :=
  match mr_item_id m with
  | Some i => [i]
  | None => []
  end.

Definition matched_ids (r : OutfitMatchResult) : list string :=
  flat_map entry_ids (matched_items r).

(** Sum of the scores of every entry, the sentinel [-1] included. *)
Definition all_slot_scores (ms : list MatchResult) : Q :=
  fold_right (fun m acc => mr_score m + acc) 0 ms.

(** Sum of the scores of the matched entries only. *)
Definition matched_slot_scores (ms : list MatchResult) : Q :=
  fold_right (fun m acc => match mr_item_id m with
                           | Some _ => mr_score m + acc
                           | None => acc
                           end) 0 ms.

(** A well-formed entry of [matched_items]: either the no-match sentinel,
    or a wardrobe item of the suggested type with a score in (-1, 11.5]. *)
Definition entry_ok (wardrobe : list WardrobeItem) (m : MatchResult) : Prop :=
  (mr_item_id m = None /\ mr_score m = -1 /\
   mr_description m = Some "No match found"%string) \/
  (exists wi, In wi wardrobe /\ mr_item_id m = Some (item_id wi) /\
              mr_type m = Some (type wi) /\ mr_description m = description wi /\
              normalize (Some (type wi)) = normalize (sg_type (mr_suggestion m)) /\
              -1 < mr_score m /\ mr_score m <= 23 # 2).

Definition unused (used_items : list string) (item : WardrobeItem) : bool :=
  negb (existsb (String.eqb (item_id item)) used_items).

(** The type test of [find_best_match], against the value of the
    suggested item's ["type"] key. *)
Definition same_type (suggested_type : option string) (item : WardrobeItem) : bool :=
  String.eqb (normalize (Some (type item))) (normalize suggested_type).

Definition drop_wardrobe_description (wi : WardrobeItem) : WardrobeItem :=
  {| item_id := item_id wi; type := type wi; color := color wi; pattern := pattern wi;
     fabric := fabric wi; description := None; brand := brand wi;
     image_url := image_url wi; created_at := created_at wi |}.

Definition drop_suggested_description (si : SuggestedItem) : SuggestedItem :=
  {| s_type := s_type si; s_category := s_category si; s_color := s_color si;
     s_pattern := s_pattern si; s_fabric := s_fabric si; s_description := None |}.

(* ------------------------------------------------------------------ *)
(** ** Invariants of the greedy assignment *)

Lemma find_best_match_loop_spec :
  forall si t W used mset b0 h0 b s,
    s_type si = Some t ->
    find_best_match_loop si W used mset b0 h0 = Ok (b, s) ->
    h0 <= s /\
    ((b = b0 /\ s = h0) \/
     (exists bm, b = Some bm /\ In bm W /\ unused used bm = true /\
                 same_type t bm = true /\ s = candidate_score si mset bm /\ h0 < s)) /\
    (forall it, In it W -> unused used it = true -> same_type t it = true ->
                candidate_score si mset it <= s).
Proof.
  intros si t W used mset. induction W as [|it W IH]; intros b0 h0 b s Ht H; simpl in H.
  - inversion H; subst. split; [apply Qle_refl|]. split; [left; auto|]. intros _ [].
  - unfold unused in *. rewrite Ht in H. simpl in H.
    destruct (negb (existsb (String.eqb (item_id it)) used)) eqn:Hu.
    + unfold same_type.
      destruct (String.eqb (normalize (Some (type it))) (normalize t)) eqn:Hty.
      * destruct (Qlt_le_dec h0 (candidate_score si mset it)) as [Hlt|Hle].
        -- destruct (IH _ _ _ _ Ht H) as (Hle' & Hcase & Hmax).
           split; [apply Qle_trans with (candidate_score si mset it); [apply Qlt_le_weak|]; auto|].
           split.
           ++ right. destruct Hcase as [[-> ->]|(bm & -> & Hin & Hu' & Hty' & -> & Hlt')].
              ** exists it. repeat split; simpl; auto.
              ** exists bm. repeat split; auto.
                 --- right; auto.
                 --- apply Qlt_trans with (candidate_score si mset it); auto.
           ++ intros x [<-|Hin] Hux Htx; auto.
        -- destruct (IH _ _ _ _ Ht H) as (Hle' & Hcase & Hmax).
           split; [auto|]. split.
           ++ destruct Hcase as [?|(bm & ? & ? & ?)]; [left; auto|right; exists bm; simpl; intuition].
           ++ intros x [<-|Hin] Hux Htx; auto.
              apply Qle_trans with h0; auto.
      * destruct (IH _ _ _ _ Ht H) as (Hle' & Hcase & Hmax).
        split; [auto|]. split.
        -- destruct Hcase as [?|(bm & ? & ? & ?)]; [left; auto|right; exists bm; simpl; intuition].
        -- intros x [<-|Hin] Hux Htx; auto. unfold same_type in Htx. congruence.
    + destruct (IH _ _ _ _ Ht H) as (Hle' & Hcase & Hmax).
      split; [auto|]. split.
      * destruct Hcase as [?|(bm & ? & ? & ?)]; [left; auto|right; exists bm; simpl; intuition].
      * intros x [<-|Hin] Hux Htx; auto. congruence.
Qed.

Lemma find_best_match_loop_unused :
  forall si W used mset b0 h0 b s,
    find_best_match_loop si W used mset b0 h0 = Ok (b, s) ->
    b = b0 \/ (exists bm, b = Some bm /\ In bm W /\ unused used bm = true).
Proof.
  intros si W used mset. induction W as [|it W IH]; intros b0 h0 b s H; simpl in H.
  - inversion H; subst; auto.
  - destruct (negb (existsb (String.eqb (item_id it)) used)) eqn:Hu.
    + destruct (s_type si) as [t|]; simpl in H; [|discriminate].
      destruct (String.eqb (normalize (Some (type it))) (normalize t)).
      * destruct (Qlt_le_dec h0 (candidate_score si mset it)).
        -- destruct (IH _ _ _ _ H) as [->|(bm & -> & Hin & Hu')];
             right; [exists it | exists bm]; simpl; auto.
        -- destruct (IH _ _ _ _ H) as [->|(bm & -> & Hin & Hu')];
             [left|right; exists bm]; simpl; auto.
      * destruct (IH _ _ _ _ H) as [->|(bm & -> & Hin & Hu')];
          [left|right; exists bm]; simpl; auto.
    + destruct (IH _ _ _ _ H) as [->|(bm & -> & Hin & Hu')];
        [left|right; exists bm]; simpl; auto.
Qed.

Lemma find_best_match_loop_no_type :
  forall si W used mset b0 h0,
    s_type si = None ->
    ((exists it, In it W /\ unused used it = true) ->
     find_best_match_loop si W used mset b0 h0 = Err (KeyError "type"%string)) /\
    ((forall it, In it W -> unused used it = false) ->
     find_best_match_loop si W used mset b0 h0 = Ok (b0, h0)).
Proof.
  intros si W used mset b0 h0 Ht. induction W as [|it W IH]; simpl.
  - split; [intros (x & [] & _)|reflexivity].
  - unfold unused in IH |- *. destruct IH as [IH1 IH2].
    destruct (negb (existsb (String.eqb (item_id it)) used)) eqn:Hu.
    + rewrite Ht. simpl. split; [reflexivity|].
      intros Hall. specialize (Hall it (or_introl eq_refl)). unfold unused in Hall. congruence.
    + split.
      * intros (x & [<-|Hin] & Hx); [unfold unused in Hx; congruence|]. apply IH1. eauto.
      * intros Hall. apply IH2. intros x Hin. apply Hall. auto.
Qed.

Lemma find_best_match_loop_err_cause :
  forall si W used mset b0 h0 e,
    find_best_match_loop si W used mset b0 h0 = Err e ->
    s_type si = None /\ exists it, In it W /\ unused used it = true.
Proof.
  intros si W used mset. induction W as [|it W IH]; intros b0 h0 e H; simpl in H; [discriminate|].
  unfold unused in IH |- *.
  destruct (negb (existsb (String.eqb (item_id it)) used)) eqn:Hu.
  - destruct (s_type si) as [t|] eqn:Ht; simpl in H.
    + destruct (String.eqb (normalize (Some (type it))) (normalize t));
        [destruct (Qlt_le_dec h0 (candidate_score si mset it))|];
        destruct (IH _ _ _ H) as [? (x & ? & ?)]; split; auto; exists x; simpl; auto.
    + split; auto. exists it. simpl. auto.
  - destruct (IH _ _ _ H) as [? (x & ? & ?)]. split; auto. exists x. simpl. auto.
Qed.

Lemma unused_not_in : forall used item,
  unused used item = true -> ~ In (item_id item) used.
Proof.
  unfold unused. intros used item H Hin.
  apply negb_true_iff in H.
  assert (existsb (String.eqb (item_id item)) used = true) as E.
  { apply existsb_exists. exists (item_id item). split; auto. apply String.eqb_refl. }
  congruence.
Qed.

Lemma matched_slot_scores_app : forall l1 l2,
  matched_slot_scores (l1 ++ l2) == matched_slot_scores l1 + matched_slot_scores l2.
Proof.
  induction l1 as [|m l1 IH]; intros l2; simpl.
  - ring.
  - destruct (mr_item_id m); rewrite IH; ring.
Qed.

Lemma all_slot_scores_app : forall l1 l2,
  all_slot_scores (l1 ++ l2) == all_slot_scores l1 + all_slot_scores l2.
Proof.
  induction l1 as [|m l1 IH]; intros l2; simpl.
  - ring.
  - rewrite IH; ring.
Qed.

(** One outfit's loop only appends entries, adds the id of every matched
    entry to the used set (keeping it duplicate-free) and adds the scores of
    the matched entries to the total. *)
Lemma match_items_spec :
  forall items W U objs ms t ms' U' t',
    match_items items W U objs ms t = Ok (ms', U', t') ->
    exists new, ms' = ms ++ new /\ U' = U ++ flat_map entry_ids new /\
                (NoDup U -> NoDup U') /\ t' == t + matched_slot_scores new.
Proof.
  induction items as [|item items IH]; intros W U objs ms t ms' U' t' H; simpl in H.
  - inversion H; subst. exists []. rewrite !app_nil_r. simpl.
    repeat split; auto. ring.
  - destruct (find_best_match item W U objs) as [[b s]|e] eqn:Hf; simpl in H; [|discriminate].
    destruct b as [bm|].
    + apply IH in H as (new & -> & -> & Hnd & Ht).
      unfold find_best_match in Hf.
      destruct (find_best_match_loop_unused _ _ _ _ _ _ _ _ Hf) as [Hc|(bm' & Hc & _ & Hu)];
        [discriminate|].
      injection Hc as <-.
      exists (matched_entry bm s item :: new). repeat split.
      * rewrite <- app_assoc. reflexivity.
      * rewrite <- app_assoc. reflexivity.
      * intros HU. apply Hnd. apply NoDup_app; auto.
        -- repeat constructor. intros [].
        -- intros a Ha [<-|[]]. apply (unused_not_in _ _ Hu Ha).
      * rewrite Ht. simpl. ring.
    + apply IH in H as (new & -> & -> & Hnd & Ht).
      exists (no_match_entry item :: new). repeat split.
      * rewrite <- app_assoc. reflexivity.
      * auto.
      * rewrite Ht. simpl. ring.
Qed.

(** The loop over the candidate outfits: the outfits it appends have
    totals equal to the sum of their matched scores, and the ids matched
    in them, put after the used set they start from, stay duplicate-free. *)
Lemma match_outfits_spec :
  forall outs W U acc rs,
    match_outfits outs W U acc = Ok (Matches rs) ->
    exists new, rs = acc ++ new /\
      (forall r, In r new -> total_score r == matched_slot_scores (matched_items r)) /\
      (NoDup U -> NoDup (U ++ flat_map matched_ids new)).
Proof.
  induction outs as [|o outs IH]; intros W U acc rs H; simpl in H.
  - inversion H; subst. exists []. rewrite !app_nil_r. simpl.
    repeat split; auto. intros r [].
  - destruct (clothing_items o) as [items|]; [|discriminate].
    destruct (getitem "outfit_name" (outfit_name o)) as [name|e]; simpl in H; [|discriminate].
    destruct (match_items items W U [] [] 0) as [[[matched U'] total]|e] eqn:Hm;
      simpl in H; [|discriminate].
    apply match_items_spec in Hm as (new1 & -> & -> & Hnd1 & Ht1).
    apply IH in H as (new & -> & Htot & Hnd).
    eexists. split; [rewrite <- app_assoc; reflexivity|]. split.
    + intros r [<-|Hin]; auto. simpl. rewrite Ht1. ring.
    + intros HU. simpl. unfold matched_ids at 1. simpl.
      rewrite app_assoc. auto.
Qed.

Lemma NoDup_flat_map_member : forall {A B} (f : A -> list B) l x,
  NoDup (flat_map f l) -> In x l -> NoDup (f x).
Proof.
  intros A B f l x. induction l as [|y l IH]; simpl; intros Hnd Hin; [contradiction|].
  destruct Hin as [<-|Hin].
  - eapply NoDup_app_remove_r; eauto.
  - apply IH; auto. eapply NoDup_app_remove_l; eauto.
Qed.

(** Every result of the matcher: totals and duplicate-free ids across the
    whole list of outfits. *)
Lemma match_outfit_with_wardrobe_spec :
  forall s W rs,
    match_outfit_with_wardrobe s W = Ok (Matches rs) ->
    (forall r, In r rs -> total_score r == matched_slot_scores (matched_items r)) /\
    NoDup (flat_map matched_ids rs).
Proof.
  intros s W rs H. unfold match_outfit_with_wardrobe in H.
  destruct (outfit_recommendations s) as [outs|]; [|discriminate].
  apply match_outfits_spec in H as (new & -> & Htot & Hnd).
  split; auto. apply (Hnd (NoDup_nil _)).
Qed.

(* ------------------------------------------------------------------ *)
(** ** Claims about the totals and the used-items set *)

Section ClaimsTotals.
Import Samples.
Local Open Scope string_scope.

(** C1 (counterexample). One outfit with two "top" slots and a wardrobe
    with a single top: the first slot matches with score 7, the second is
    the no-match sentinel with score -1, and [total_score] is 7, not the
    sum 6 of all slot scores. *)
Lemma total_score_all_slots_counterexample :
  match match_outfit_with_wardrobe (suggestion [one_outfit "o" [top_slot; top_slot]]) [white_top] with
  | Ok (Matches [r]) =>
      total_score r == 7 /\ all_slot_scores (matched_items r) == 6 /\
      ~ (total_score r == all_slot_scores (matched_items r))
  | _ => False
  end.
Proof. vm_compute. split; [reflexivity|]. split; [reflexivity|]. discriminate. Qed.

(** C1 (amended). In every result of the matcher, the [total_score] of an
    outfit is the sum of the scores of its matched slots; the no-match
    entries (score -1) add nothing to it. *)
Theorem total_score_sums_matched_slots :
  forall s W rs,
    match_outfit_with_wardrobe s W = Ok (Matches rs) ->
    forall r, In r rs -> total_score r == matched_slot_scores (matched_items r).
Proof.
  intros s W rs H. exact (proj1 (match_outfit_with_wardrobe_spec _ _ _ H)).
Qed.

Lemma total_score_sums_matched_slots_witness :
  match match_outfit_with_wardrobe (suggestion [one_outfit "o" [top_slot; top_slot]]) [white_top] with
  | Ok (Matches (r :: _)) => total_score r == matched_slot_scores (matched_items r)
  | _ => False
  end.
Proof.
  destruct (match_outfit_with_wardrobe (suggestion [one_outfit "o" [top_slot; top_slot]]) [white_top])
    as [[e|[|r rs]]|e] eqn:E; try (vm_compute in E; discriminate).
  apply (total_score_sums_matched_slots _ _ _ E r). simpl; auto.
Defined.

(** C2 (counterexample). Two outfits, each with one "top" slot, and one
    top in the wardrobe: the first outfit takes item "A", which is then
    used, and the second outfit gets no match. *)
Lemma used_items_fresh_per_outfit_counterexample :
  match match_outfit_with_wardrobe
          (suggestion [one_outfit "o" [top_slot]; one_outfit "p" [top_slot]]) [white_top] with
  | Ok (Matches [r1; r2]) => matched_ids r1 = ["A"] /\ matched_ids r2 = []
  | _ => False
  end.
Proof. vm_compute. split; reflexivity. Qed.

(** C2 (amended). The used-items set is shared by all the candidate
    outfits of one call: no wardrobe id is matched twice in the whole
    result, so an item matched in one outfit is never matched again in a
    later one. *)
Theorem used_items_shared_across_outfits :
  forall s W rs,
    match_outfit_with_wardrobe s W = Ok (Matches rs) ->
    NoDup (flat_map matched_ids rs).
Proof.
  intros s W rs H. exact (proj2 (match_outfit_with_wardrobe_spec _ _ _ H)).
Qed.

Lemma used_items_shared_across_outfits_witness :
  match match_outfit_with_wardrobe
          (suggestion [one_outfit "o" [top_slot]; one_outfit "p" [top_slot]]) [white_top] with
  | Ok (Matches rs) => NoDup (flat_map matched_ids rs)
  | _ => False
  end.
Proof.
  destruct (match_outfit_with_wardrobe
              (suggestion [one_outfit "o" [top_slot]; one_outfit "p" [top_slot]]) [white_top])
    as [[e|rs]|e] eqn:E; try (vm_compute in E; discriminate).
  exact (used_items_shared_across_outfits _ _ _ E).
Defined.

(** C3. Within each outfit of a result of the matcher, no wardrobe
    [item_id] is matched by more than one entry. *)
Theorem item_ids_unique_within_outfit :
  forall s W rs,
    match_outfit_with_wardrobe s W = Ok (Matches rs) ->
    forall r, In r rs -> NoDup (matched_ids r).
Proof.
  intros s W rs H r Hin.
  apply (NoDup_flat_map_member matched_ids rs r); auto.
  exact (proj2 (match_outfit_with_wardrobe_spec _ _ _ H)).
Qed.

Lemma item_ids_unique_within_outfit_witness :
  match match_outfit_with_wardrobe (suggestion [one_outfit "o" Samples.three_slots])
          [plain_top; plain_bottom; plain_shoes] with
  | Ok (Matches (r :: _)) => NoDup (matched_ids r)
  | _ => False
  end.
Proof.
  destruct (match_outfit_with_wardrobe (suggestion [one_outfit "o" Samples.three_slots])
              [plain_top; plain_bottom; plain_shoes])
    as [[e|[|r rs]]|e] eqn:E; try (vm_compute in E; discriminate).
  apply (item_ids_unique_within_outfit _ _ _ E r). simpl; auto.
Defined.

End ClaimsTotals.

(* ------------------------------------------------------------------ *)
(** ** Claims about the scorer and the greedy choice *)

Section ClaimsScoring.
Import Samples.
Local Open Scope string_scope.

(** C4. When the normalized wardrobe [type] differs from the normalized
    suggested type (the ["type"] key, else the ["category"] key, else
    [""]), [get_match_score] is exactly -1. *)
Theorem type_mismatch_scores_minus_one :
  forall si wi,
    normalize (Some (type wi)) <> normalize (get (s_type si) (get (s_category si) (Some ""))) ->
    get_match_score si wi = -1.
Proof.
  intros si wi Hne. unfold get_match_score.
  destruct (String.eqb (normalize (Some (type wi)))
                       (normalize (get (s_type si) (get (s_category si) (Some ""))))) eqn:E.
  - apply String.eqb_eq in E. contradiction.
  - reflexivity.
Qed.

Lemma type_mismatch_scores_minus_one_witness :
  get_match_score (slot "top" (Some (Some "blue")) None None None)
    (wardrobe_item "B" "bottom" (Some "blue") None None None) = -1.
Proof.
  apply type_mismatch_scores_minus_one. vm_compute. discriminate.
Defined.

(** C5 (counterexample). Outfit top / bottom / blue shoes against a
    wardrobe whose top, bottom and red striped shoes share the description
    "plain cotton". The shoes are unused and of the same type, but their
    score 1 is lowered by 2 for each of the two matched items with the same
    description, to -3; -3 is not above the initial [highest_score] -1, so
    the shoes slot gets the no-match sentinel. *)
Lemma negative_score_always_accepted_counterexample :
  match match_outfit_with_wardrobe (suggestion [one_outfit "o" three_slots])
          [plain_top; plain_bottom; plain_shoes] with
  | Ok (Matches [r]) =>
      map mr_item_id (matched_items r) = [Some "a"; Some "b"; None] /\
      map (fun m => Qred (mr_score m)) (matched_items r) = [7; 5; -1]
  | _ => False
  end /\
  unused ["a"; "b"] plain_shoes = true /\
  same_type (Some "shoes") plain_shoes = true /\
  candidate_score (slot "shoes" (Some (Some "blue")) None None None)
    [plain_top; plain_bottom] plain_shoes == -3.
Proof.
  split; [vm_compute; split; reflexivity|].
  split; [reflexivity|]. split; [reflexivity|]. vm_compute. reflexivity.
Qed.

(** C5 (amended). For a slot whose suggested item has a ["type"] key,
    [find_best_match] raises nothing, and it returns an item exactly when
    some unused wardrobe item of the same normalized type has a
    penalty-adjusted score above -1 (a negative score above -1 is
    accepted); the returned item is unused, of the same type, has the
    highest adjusted score, and that score is returned. The outfit loop
    then records the item with that score, adds the score to the total and
    marks the item used. Otherwise [find_best_match] returns no item and
    -1, and the loop records the no-match sentinel with score -1, leaves
    the total unchanged and marks no item used. *)
Theorem find_best_match_accepts_above_minus_one :
  forall si t W used mset,
    s_type si = Some t ->
    (exists b s, find_best_match si W used mset = Ok (b, s)) /\
    forall b s,
    find_best_match si W used mset = Ok (b, s) ->
    (forall bm, b = Some bm ->
       In bm W /\ unused used bm = true /\ same_type t bm = true /\
       s = candidate_score si mset bm /\ -1 < s) /\
    (b = None -> s = -1) /\
    (b = None <-> forall it, In it W -> unused used it = true -> same_type t it = true ->
                            candidate_score si mset it <= -1) /\
    (forall it, In it W -> unused used it = true -> same_type t it = true ->
                candidate_score si mset it <= s) /\
    (forall rest ms total bm, b = Some bm ->
       match_items (si :: rest) W used mset ms total
       = match_items rest W (used ++ [item_id bm]) (mset ++ [bm])
           (ms ++ [matched_entry bm s si]) (total + s) /\
       mr_item_id (matched_entry bm s si) = Some (item_id bm) /\
       mr_score (matched_entry bm s si) = s) /\
    (forall rest ms total, b = None ->
       match_items (si :: rest) W used mset ms total
       = match_items rest W used mset (ms ++ [no_match_entry si]) total /\
       mr_item_id (no_match_entry si) = None /\
       mr_score (no_match_entry si) = -1 /\
       mr_description (no_match_entry si) = Some "No match found").
Proof.
  intros si t W used mset Ht. split.
  - destruct (find_best_match si W used mset) as [[b s]|e] eqn:H; [eauto|].
    unfold find_best_match in H. apply find_best_match_loop_err_cause in H as [Hn _].
    congruence.
  - intros b s H.
    assert (Hstep : forall rest ms total,
               match_items (si :: rest) W used mset ms total
               = match b with
                 | Some bm => match_items rest W (used ++ [item_id bm]) (mset ++ [bm])
                                (ms ++ [matched_entry bm s si]) (total + s)
                 | None => match_items rest W used mset (ms ++ [no_match_entry si]) total
                 end).
    { intros rest ms total. simpl. rewrite H. reflexivity. }
    unfold find_best_match in H.
    destruct (find_best_match_loop_spec _ _ _ _ _ _ _ _ _ Ht H) as (Hle & Hcase & Hmax).
    split; [|split; [|split; [|split; [|split]]]]; auto.
    + intros bm ->. destruct Hcase as [[? _]|(bm' & Hb & ?)]; [discriminate|].
      injection Hb as <-. intuition.
    + intros ->. destruct Hcase as [[_ ?]|(bm' & Hb & _)]; [auto|discriminate].
    + split.
      * intros -> it Hin Hu Hty. destruct Hcase as [[_ ->]|(bm' & Hb & _)]; [auto|discriminate].
      * intros Hall. destruct Hcase as [[? _]|(bm & -> & Hin & Hu & Hty & -> & Hlt)]; auto.
        exfalso. apply (Qlt_not_le _ _ Hlt). apply Hall; auto.
    + intros rest ms total bm ->. rewrite Hstep. repeat split.
    + intros rest ms total ->. rewrite Hstep. repeat split.
Qed.

Lemma find_best_match_accepts_above_minus_one_witness :
  match find_best_match (slot "shoes" (Some (Some "blue")) None None None)
          [plain_top; plain_bottom; plain_shoes] ["a"; "b"] [plain_top; plain_bottom] with
  | Ok (b, s) =>
      (b = None -> s = -1) /\
      (b = None ->
       match_items [slot "shoes" (Some (Some "blue")) None None None]
         [plain_top; plain_bottom; plain_shoes] ["a"; "b"] [plain_top; plain_bottom] [] 12
       = match_items [] [plain_top; plain_bottom; plain_shoes] ["a"; "b"] [plain_top; plain_bottom]
           [no_match_entry (slot "shoes" (Some (Some "blue")) None None None)] 12)
  | Err _ => False
  end.
Proof.
  destruct (find_best_match (slot "shoes" (Some (Some "blue")) None None None)
              [plain_top; plain_bottom; plain_shoes] ["a"; "b"] [plain_top; plain_bottom])
    as [[b s]|e] eqn:E; [|vm_compute in E; discriminate].
  destruct (proj2 (find_best_match_accepts_above_minus_one
                     (slot "shoes" (Some (Some "blue")) None None None) (Some "shoes")
                     _ _ _ eq_refl) b s E) as (_ & Hnone & _ & _ & _ & Hstep).
  split; [exact Hnone|].
  intros Hb. exact (proj1 (Hstep [] [] 12 Hb)).
Defined.

End ClaimsScoring.

(* ------------------------------------------------------------------ *)
(** ** Error surface of the matcher *)

Lemma find_best_match_loop_err :
  forall si W used mset b0 h0 e,
    find_best_match_loop si W used mset b0 h0 = Err e -> e = KeyError "type"%string.
Proof.
  intros si W used mset. induction W as [|it W IH]; intros b0 h0 e H; simpl in H.
  - discriminate.
  - destruct (negb (existsb (String.eqb (item_id it)) used)); [|eauto].
    destruct (s_type si) as [t|]; simpl in H; [|congruence].
    destruct (String.eqb (normalize (Some (type it))) (normalize t)); [|eauto].
    destruct (Qlt_le_dec h0 (candidate_score si mset it)); eauto.
Qed.

Lemma match_items_err :
  forall items W U objs ms t e,
    match_items items W U objs ms t = Err e -> e = KeyError "type"%string.
Proof.
  induction items as [|item items IH]; intros W U objs ms t e H; simpl in H; [discriminate|].
  destruct (find_best_match item W U objs) as [[b s]|e'] eqn:Hf; simpl in H.
  - destruct b; eauto.
  - injection H as <-. eapply find_best_match_loop_err; eauto.
Qed.

Lemma match_outfits_err :
  forall outs W U acc e,
    match_outfits outs W U acc = Err e -> exists k, e = KeyError k.
Proof.
  induction outs as [|o outs IH]; intros W U acc e H; simpl in H; [discriminate|].
  destruct (clothing_items o) as [items|]; [|discriminate].
  destruct (outfit_name o) as [name|]; simpl in H; [|injection H as <-; eauto].
  destruct (match_items items W U [] [] 0) as [[[matched U'] total]|e'] eqn:Hm; simpl in H.
  - eauto.
  - injection H as <-. apply match_items_err in Hm. eauto.
Qed.

Lemma match_outfits_err_keys :
  forall outs W U acc e,
    match_outfits outs W U acc = Err e ->
    e = KeyError "type"%string \/ e = KeyError "outfit_name"%string.
Proof.
  induction outs as [|o outs IH]; intros W U acc e H; simpl in H; [discriminate|].
  destruct (clothing_items o) as [items|]; [|discriminate].
  destruct (outfit_name o) as [name|]; simpl in H; [|injection H as <-; auto].
  destruct (match_items items W U [] [] 0) as [[[matched U'] total]|e'] eqn:Hm; simpl in H.
  - eauto.
  - injection H as <-. apply match_items_err in Hm. auto.
Qed.


Lemma match_outfits_missing_items :
  forall pre o post W U acc,
    Forall (fun o => clothing_items o <> None) pre ->
    clothing_items o = None ->
    match_outfits (pre ++ o :: post) W U acc
      = Ok (ErrorDict "No clothing items in outfit suggestion"%string)
    \/ exists k, match_outfits (pre ++ o :: post) W U acc = Err (KeyError k).
Proof.
  induction pre as [|p pre IH]; intros o post W U acc Hall Ho; simpl.
  - rewrite Ho. auto.
  - inversion Hall as [|? ? Hp Hrest]; subst.
    destruct (clothing_items p) as [items|]; [|contradiction].
    destruct (outfit_name p) as [name|]; simpl; [|eauto].
    destruct (match_items items W U [] [] 0) as [[[matched U'] total]|e'] eqn:Hm; simpl.
    + auto.
    + apply match_items_err in Hm. subst. eauto.
Qed.


Lemma match_items_empty_wardrobe :
  forall items U objs ms t,
    match_items items [] U objs ms t = Ok (ms ++ map no_match_entry items, U, t).
Proof.
  induction items as [|item items IH]; intros U objs ms t; simpl.
  - rewrite app_nil_r. reflexivity.
  - rewrite IH, <- app_assoc. reflexivity.
Qed.

Lemma match_outfits_empty_wardrobe :
  forall outs U acc,
    Forall (fun o => exists n its, outfit_name o = Some n /\ clothing_items o = Some its) outs ->
    exists new, match_outfits outs [] U acc = Ok (Matches (acc ++ new)) /\
      length new = length outs /\
      Forall (fun r => Forall (fun m => mr_item_id m = None /\ mr_score m = -1) (matched_items r)
                       /\ total_score r = 0) new.
Proof.
  induction outs as [|o outs IH]; intros U acc Hall; simpl.
  - exists []. rewrite app_nil_r. auto.
  - inversion Hall as [|? ? (n & its & Hn & Hi) Hrest]; subst.
    rewrite Hi, Hn. simpl. rewrite match_items_empty_wardrobe. simpl.
    destruct (IH U (acc ++ [{| outfit_name_r := n; total_score := 0;
                               matched_items := map no_match_entry its |}]) Hrest)
      as (new & -> & Hlen & Hnew).
    eexists. split; [rewrite <- app_assoc; reflexivity|]. split; [simpl; auto|].
    constructor; auto. simpl. split; auto.
    apply Forall_forall. intros m Hm. apply in_map_iff in Hm as (x & <- & _). auto.
Qed.

Lemma match_outfits_empty_items :
  forall outs W U acc,
    Forall (fun o => exists n, outfit_name o = Some n /\ clothing_items o = Some []) outs ->
    exists new, match_outfits outs W U acc = Ok (Matches (acc ++ new)) /\
      length new = length outs /\
      Forall (fun r => matched_items r = [] /\ total_score r = 0) new.
Proof.
  induction outs as [|o outs IH]; intros W U acc Hall; simpl.
  - exists []. rewrite app_nil_r. auto.
  - inversion Hall as [|? ? (n & Hn & Hi) Hrest]; subst.
    rewrite Hi, Hn. simpl.
    destruct (IH W U (acc ++ [{| outfit_name_r := n; total_score := 0; matched_items := [] |}]) Hrest)
      as (new & -> & Hlen & Hnew).
    eexists. split; [rewrite <- app_assoc; reflexivity|]. split; [simpl; auto|].
    constructor; auto.
Qed.

(** The shape of the matcher result. *)
Lemma match_items_shape :
  forall items W U objs ms t ms' U' t',
    match_items items W U objs ms t = Ok (ms', U', t') ->
    exists new, ms' = ms ++ new /\ map mr_suggestion new = map suggestion_of items.
Proof.
  induction items as [|item items IH]; intros W U objs ms t ms' U' t' H; simpl in H.
  - inversion H; subst. exists []. rewrite app_nil_r. auto.
  - destruct (find_best_match item W U objs) as [[b s]|e]; simpl in H; [|discriminate].
    destruct b as [bm|]; apply IH in H as (new & -> & Hs);
      eexists; (split; [rewrite <- app_assoc; reflexivity|]); simpl; f_equal; auto.
Qed.

Lemma match_outfits_shape :
  forall outs W U acc rs,
    match_outfits outs W U acc = Ok (Matches rs) ->
    exists new, rs = acc ++ new /\
      Forall2 (fun o r => exists items, clothing_items o = Some items /\
                 outfit_name o = Some (outfit_name_r r) /\
                 map mr_suggestion (matched_items r) = map suggestion_of items) outs new.
Proof.
  induction outs as [|o outs IH]; intros W U acc rs H; simpl in H.
  - inversion H; subst. exists []. rewrite app_nil_r. auto.
  - destruct (clothing_items o) as [items|] eqn:Hi; [|discriminate].
    destruct (outfit_name o) as [name|] eqn:Hn; simpl in H; [|discriminate].
    destruct (match_items items W U [] [] 0) as [[[matched U'] total]|e] eqn:Hm;
      simpl in H; [|discriminate].
    apply match_items_shape in Hm as (new1 & Hnew1 & Hs). simpl in Hnew1. subst new1.
    apply IH in H as (new & -> & Hall).
    eexists. split; [rewrite <- app_assoc; reflexivity|].
    constructor; auto. exists items. simpl. auto.
Qed.

Lemma match_items_typed_ok :
  forall items W U objs ms t,
    Forall (fun it => s_type it <> None) items ->
    exists res, match_items items W U objs ms t = Ok res.
Proof.
  induction items as [|item items IH]; intros W U objs ms t Hall; simpl; [eauto|].
  inversion Hall as [|? ? Hi Hrest]; subst.
  destruct (find_best_match item W U objs) as [[b s]|e] eqn:Hf; simpl.
  - destruct b; apply IH; auto.
  - unfold find_best_match in Hf. apply find_best_match_loop_err_cause in Hf as [Hn _].
    contradiction.
Qed.

Lemma match_outfits_typed_ok :
  forall outs W U acc,
    Forall (fun o => exists n its, outfit_name o = Some n /\ clothing_items o = Some its /\
                       Forall (fun it => s_type it <> None) its) outs ->
    exists rs, match_outfits outs W U acc = Ok (Matches rs).
Proof.
  induction outs as [|o outs IH]; intros W U acc Hall; simpl; [eauto|].
  inversion Hall as [|? ? (n & its & Hn & Hi & Hty) Hrest]; subst.
  rewrite Hi, Hn. simpl.
  destruct (match_items_typed_ok its W U [] [] 0 Hty) as [[[matched U'] total] Hm].
  rewrite Hm. simpl. apply IH. auto.
Qed.

Lemma Forall2_with_right :
  forall {A B} (P : A -> B -> Prop) (Q : B -> Prop) l1 l2,
    Forall2 P l1 l2 -> (forall b, In b l2 -> Q b) -> Forall2 (fun a b => P a b /\ Q b) l1 l2.
Proof.
  intros A B P Q l1 l2 H. induction H as [|a b l1 l2 Hab H IH]; intros HQ; constructor.
  - split; auto. apply HQ. left. reflexivity.
  - apply IH. intros x Hx. apply HQ. right. auto.
Qed.

Lemma empty_items_outfits :
  forall s W rs outs,
    outfit_recommendations s = Some outs ->
    match_outfit_with_wardrobe s W = Ok (Matches rs) ->
    Forall2 (fun o r => clothing_items o = Some [] -> matched_items r = [] /\ total_score r == 0)
      outs rs.
Proof.
  intros s W rs outs Ho H.
  pose proof (proj1 (match_outfit_with_wardrobe_spec _ _ _ H)) as Htot.
  unfold match_outfit_with_wardrobe in H. rewrite Ho in H.
  destruct (match_outfits_shape _ _ _ _ _ H) as (new & Hnew & Hall). simpl in Hnew. subst new.
  apply (Forall2_with_right _ _ _ _ Hall) in Htot.
  eapply Forall2_impl; [|exact Htot].
  intros o r ((items & Hi & _ & Hs) & Ht) He. rewrite Hi in He. injection He as ->.
  simpl in Hs. apply map_eq_nil in Hs. split; auto. rewrite Ht, Hs. reflexivity.
Qed.

Lemma max_total_in : forall best rest, In (max_total best rest) (best :: rest).
Proof.
  intros best rest. revert best. induction rest as [|x r IH]; intros best; simpl; [auto|].
  destruct (Qlt_le_dec (total_score best) (total_score x)).
  - specialize (IH x). simpl in IH. intuition.
  - specialize (IH best). simpl in IH. intuition.
Qed.

Section ClaimsErrors.
Import Samples.
Local Open Scope string_scope.




(** C7 (counterexample). With zero candidate outfits the matcher returns
    the empty list and the selection fails with the [ValueError] that
    Python's [max] raises on an empty sequence: no dedicated error. *)
Lemma zero_candidates_dedicated_error_counterexample :
  match_outfit_with_wardrobe (suggestion []) [white_top] = Ok (Matches []) /\
  recommend_from_suggestion "u" "networking event" (suggestion []) [white_top]
    = Err MaxEmptyError.
Proof. split; reflexivity. Qed.

(** C7 (amended). Zero candidate outfits: the matcher returns an empty
    list and the selection fails with Python's [ValueError] from [max] on an
    empty sequence. An empty wardrobe is legal: every slot of every outfit
    is a no-match entry (score -1), every total is 0, and the
    recommendation is an empty outfit. Empty per-outfit item lists are
    legal: in every result, each outfit whose item list is empty gets no
    entries and total 0, whatever the other outfits hold; a suggestion in
    which every outfit has a name and an item list whose items all have a
    ["type"] key, some of these lists being empty, is matched without an
    exception. *)
Theorem zero_candidates_value_error_empty_inputs_legal :
  (forall uid occ W b,
     match_outfit_with_wardrobe {| outfit_recommendations := Some []; has_other_keys := b |} W
       = Ok (Matches []) /\
     recommend_from_suggestion uid occ {| outfit_recommendations := Some []; has_other_keys := b |} W
       = Err MaxEmptyError) /\
  (forall uid occ outs b,
     outs <> [] ->
     Forall (fun o => exists n its, outfit_name o = Some n /\ clothing_items o = Some its) outs ->
     exists rs,
       match_outfit_with_wardrobe {| outfit_recommendations := Some outs; has_other_keys := b |} []
         = Ok (Matches rs) /\
       length rs = length outs /\
       Forall (fun r => Forall (fun m => mr_item_id m = None /\ mr_score m = -1) (matched_items r)
                        /\ total_score r = 0) rs /\
       recommend_from_suggestion uid occ {| outfit_recommendations := Some outs; has_other_keys := b |} []
         = Ok {| user_id := uid; occasion := occ; outfit := [] |}) /\
  (forall outs b W,
     Forall (fun o => exists n, outfit_name o = Some n /\ clothing_items o = Some []) outs ->
     exists rs,
       match_outfit_with_wardrobe {| outfit_recommendations := Some outs; has_other_keys := b |} W
         = Ok (Matches rs) /\
       length rs = length outs /\
       Forall (fun r => matched_items r = [] /\ total_score r = 0) rs) /\
  (forall s W rs outs,
     outfit_recommendations s = Some outs ->
     match_outfit_with_wardrobe s W = Ok (Matches rs) ->
     Forall2 (fun o r => clothing_items o = Some [] -> matched_items r = [] /\ total_score r == 0)
       outs rs) /\
  (forall outs b W,
     Forall (fun o => exists n its, outfit_name o = Some n /\ clothing_items o = Some its /\
                        Forall (fun it => s_type it <> None) its) outs ->
     exists rs,
       match_outfit_with_wardrobe {| outfit_recommendations := Some outs; has_other_keys := b |} W
         = Ok (Matches rs)).
Proof.
  split; [|split; [|split; [|split]]].
  - intros uid occ W b. split; reflexivity.
  - intros uid occ outs b Hne Hall.
    destruct (match_outfits_empty_wardrobe outs [] [] Hall) as (rs & Hm & Hlen & Hrs).
    exists rs. unfold match_outfit_with_wardrobe. simpl. rewrite Hm.
    split; [reflexivity|]. split; [auto|]. split; [auto|].
    unfold recommend_from_suggestion, match_outfit_with_wardrobe. simpl. rewrite Hm. simpl.
    destruct rs as [|r rs]; [destruct outs; simpl in Hlen; congruence|]. reflexivity.
  - intros outs b W Hall.
    destruct (match_outfits_empty_items outs W [] [] Hall) as (rs & Hm & Hlen & Hrs).
    exists rs. unfold match_outfit_with_wardrobe. simpl. rewrite Hm. auto.
  - exact empty_items_outfits.
  - intros outs b W Hall. unfold match_outfit_with_wardrobe. simpl.
    apply match_outfits_typed_ok. exact Hall.
Qed.

(** A zero-candidate suggestion, an empty wardrobe, and an outfit with an
    empty item list after one with a top slot. *)
Lemma zero_candidates_value_error_empty_inputs_legal_witness :
  recommend_from_suggestion "u" "networking event" (suggestion []) [white_top] = Err MaxEmptyError /\
  (exists rs,
    match_outfit_with_wardrobe (suggestion [one_outfit "o" [top_slot; top_slot]]) []
      = Ok (Matches rs) /\
    length rs = 1%nat /\
    Forall (fun r => Forall (fun m => mr_item_id m = None /\ mr_score m = -1) (matched_items r)
                     /\ total_score r = 0) rs /\
    recommend_from_suggestion "u" "networking event" (suggestion [one_outfit "o" [top_slot; top_slot]]) []
      = Ok {| user_id := "u"; occasion := "networking event"; outfit := [] |}) /\
  match match_outfit_with_wardrobe (suggestion [one_outfit "o" [top_slot]; one_outfit "e" []])
          [white_top] with
  | Ok (Matches rs) =>
      Forall2 (fun o r => clothing_items o = Some [] -> matched_items r = [] /\ total_score r == 0)
        [one_outfit "o" [top_slot]; one_outfit "e" []] rs
  | _ => False
  end.
Proof.
  split; [|split].
  - exact (proj2 (proj1 zero_candidates_value_error_empty_inputs_legal
                    "u" "networking event" [white_top] false)).
  - apply (proj1 (proj2 zero_candidates_value_error_empty_inputs_legal)).
    + discriminate.
    + repeat constructor. do 2 eexists. split; reflexivity.
  - destruct (proj2 (proj2 (proj2 (proj2 zero_candidates_value_error_empty_inputs_legal)))
                [one_outfit "o" [top_slot]; one_outfit "e" []] false [white_top]) as (rs & E).
    + repeat constructor; do 2 eexists; (split; [reflexivity|split; [reflexivity|]]);
        repeat constructor; discriminate.
    + change (suggestion [one_outfit "o" [top_slot]; one_outfit "e" []])
        with {| outfit_recommendations := Some [one_outfit "o" [top_slot]; one_outfit "e" []];
                has_other_keys := false |}.
      rewrite E.
      exact (proj1 (proj2 (proj2 (proj2 zero_candidates_value_error_empty_inputs_legal)))
               {| outfit_recommendations := Some [one_outfit "o" [top_slot]; one_outfit "e" []];
                  has_other_keys := false |}
               [white_top] rs [one_outfit "o" [top_slot]; one_outfit "e" []] eq_refl E).
Defined.

End ClaimsErrors.

(* ------------------------------------------------------------------ *)
(** ** Empty attributes in the scorer *)

Lemma similarity_of_stripped :
  forall t1 t2,
    truthy (Some t1) = true -> truthy (Some t2) = true ->
    normalize (Some t1) = EmptyString -> normalize (Some t2) = EmptyString ->
    get_text_similarity (Some t1) (Some t2) = 1.
Proof.
  intros t1 t2 H1 H2 N1 N2. unfold get_text_similarity.
  rewrite H1, H2. simpl. rewrite N1, N2. reflexivity.
Qed.

Lemma similarity_of_falsy :
  forall t1 t2, truthy t1 = false \/ truthy t2 = false -> get_text_similarity t1 t2 = 0.
Proof.
  intros t1 t2 [H|H]; unfold get_text_similarity; rewrite H; simpl; auto.
  destruct (negb (truthy t1)); reflexivity.
Qed.

(** A type-matched score is the score without descriptions plus the
    description bonus. *)
Lemma get_match_score_description_part :
  forall si wi,
    normalize (Some (type wi)) = normalize (get (s_type si) (get (s_category si) (Some ""%string))) ->
    get_match_score si wi
    == get_match_score (drop_suggested_description si) (drop_wardrobe_description wi)
       + get_text_similarity (description wi) (get (s_description si) (Some ""%string)) * (3 # 2).
Proof.
  intros si wi Ht. unfold get_match_score.
  cbn [drop_suggested_description drop_wardrobe_description s_type s_category s_color
       s_pattern s_fabric s_description type color pattern fabric description].
  rewrite Ht, String.eqb_refl. cbn [negb].
  change (get_text_similarity None (get None (Some ""%string))) with 0.
  ring.
Qed.

Section ClaimsAttributes.
Import Samples.
Local Open Scope string_scope.

(** C8 (code bug). A slot with a ["category"] key and no ["type"] key
    against a wardrobe with an unused top: [get_match_score] resolves the
    category and scores the pair 7, but [find_best_match] reads
    [suggested_item["type"]] before scoring and raises [KeyError]. *)
Theorem category_only_slot_raises_key_error :
  match_outfit_with_wardrobe (suggestion [one_outfit "o" [category_only_slot]]) [white_top]
    = Err (KeyError "type") /\
  get_match_score category_only_slot white_top == 7.
Proof. split; vm_compute; reflexivity. Qed.

(** C9. For a type-matched pair whose two colors normalize to [""]
    (absent, [null], empty or without letters and digits), the color bonus
    2 is added, whatever the patterns; for a type-matched pair whose two
    patterns normalize to [""], the pattern bonus 4 is added, whatever the
    colors. So a type-matched pair with no color, pattern, fabric or
    description on either side scores 7. *)
Theorem empty_color_and_pattern_earn_bonuses :
  (forall si wi,
     normalize (Some (type wi)) = normalize (get (s_type si) (get (s_category si) (Some ""))) ->
     normalize (color wi) = "" -> normalize (get (s_color si) (Some "")) = "" ->
     get_match_score si wi
     == 1 + 2
        + (if String.eqb (normalize (pattern wi)) (normalize (get (s_pattern si) (Some "")))
           then 4 else 0)
        + (if truthy (Some (normalize (fabric wi))) && truthy (Some (normalize (get (s_fabric si) (Some ""))))
              && (contains (normalize (fabric wi)) (normalize (get (s_fabric si) (Some "")))
                  || contains (normalize (get (s_fabric si) (Some ""))) (normalize (fabric wi)))
           then 3 else 0)
        + get_text_similarity (description wi) (get (s_description si) (Some "")) * (3 # 2)) /\
  (forall si wi,
     normalize (Some (type wi)) = normalize (get (s_type si) (get (s_category si) (Some ""))) ->
     normalize (pattern wi) = "" -> normalize (get (s_pattern si) (Some "")) = "" ->
     get_match_score si wi
     == 1
        + (if String.eqb (normalize (color wi)) (normalize (get (s_color si) (Some "")))
           then 2 else 0)
        + 4
        + (if truthy (Some (normalize (fabric wi))) && truthy (Some (normalize (get (s_fabric si) (Some ""))))
              && (contains (normalize (fabric wi)) (normalize (get (s_fabric si) (Some "")))
                  || contains (normalize (get (s_fabric si) (Some ""))) (normalize (fabric wi)))
           then 3 else 0)
        + get_text_similarity (description wi) (get (s_description si) (Some "")) * (3 # 2)) /\
  (forall si wi,
     normalize (Some (type wi)) = normalize (get (s_type si) (get (s_category si) (Some ""))) ->
     color wi = None -> s_color si = None -> pattern wi = None -> s_pattern si = None ->
     fabric wi = None -> s_fabric si = None -> description wi = None -> s_description si = None ->
     get_match_score si wi == 7).
Proof.
  split; [|split].
  - intros si wi Ht Hc1 Hc2. unfold get_match_score.
    rewrite Ht, String.eqb_refl, Hc1, Hc2. cbn [negb String.eqb].
    destruct (String.eqb (normalize (pattern wi)) _); destruct (_ && _ && _); ring.
  - intros si wi Ht Hp1 Hp2. unfold get_match_score.
    rewrite Ht, String.eqb_refl, Hp1, Hp2. cbn [negb String.eqb].
    destruct (String.eqb (normalize (color wi)) _); destruct (_ && _ && _); ring.
  - intros si wi Ht Hc1 Hc2 Hp1 Hp2 Hf1 Hf2 Hd1 Hd2. unfold get_match_score.
    rewrite Ht, String.eqb_refl, Hc1, Hc2, Hp1, Hp2, Hf1, Hf2, Hd1, Hd2.
    reflexivity.
Qed.

(** Colors absent on both sides, patterns "dots" and "stripes": the color
    bonus is added and the pattern bonus is not, score 3; a bare
    type-matched pair scores 7. *)
Lemma empty_color_and_pattern_earn_bonuses_witness :
  get_match_score (slot "top" None (Some (Some "dots")) None None)
    (wardrobe_item "D" "top" None (Some "stripes") None None) == 3 /\
  get_match_score (slot "top" (Some (Some "navy")) None None None)
    (wardrobe_item "E" "top" (Some "black") None None None) == 5 /\
  get_match_score top_slot white_top == 7.
Proof.
  split; [|split].
  - eapply Qeq_trans; [apply (proj1 empty_color_and_pattern_earn_bonuses); reflexivity|].
    vm_compute. reflexivity.
  - eapply Qeq_trans; [apply (proj1 (proj2 empty_color_and_pattern_earn_bonuses)); reflexivity|].
    vm_compute. reflexivity.
  - apply (proj2 (proj2 empty_color_and_pattern_earn_bonuses)); reflexivity.
Defined.

(** C10. Two non-empty strings that normalize to [""] (such as "!!!" and
    "???") have text similarity 1, the ratio of two empty sequences, so as
    descriptions of a type-matched pair they add the full bonus 1.5; the
    similarity is 0 only when an input is absent or empty before
    normalization. *)
Theorem stripped_descriptions_similarity_one :
  (forall t1 t2,
     truthy (Some t1) = true -> truthy (Some t2) = true ->
     normalize (Some t1) = "" -> normalize (Some t2) = "" ->
     get_text_similarity (Some t1) (Some t2) == 1) /\
  (forall si wi d1 d2,
     normalize (Some (type wi)) = normalize (get (s_type si) (get (s_category si) (Some ""))) ->
     description wi = Some d1 -> get (s_description si) (Some "") = Some d2 ->
     truthy (Some d1) = true -> truthy (Some d2) = true ->
     normalize (Some d1) = "" -> normalize (Some d2) = "" ->
     get_match_score si wi
     == get_match_score (drop_suggested_description si) (drop_wardrobe_description wi) + (3 # 2)) /\
  (forall t1 t2, truthy t1 = false \/ truthy t2 = false -> get_text_similarity t1 t2 == 0).
Proof.
  split; [|split].
  - intros t1 t2 H1 H2 N1 N2. rewrite (similarity_of_stripped t1 t2); auto. reflexivity.
  - intros si wi d1 d2 Ht Hd1 Hd2 T1 T2 N1 N2.
    rewrite (get_match_score_description_part si wi Ht), Hd1, Hd2.
    rewrite (similarity_of_stripped d1 d2); auto. ring.
  - intros t1 t2 H. rewrite (similarity_of_falsy t1 t2 H). reflexivity.
Qed.

Lemma stripped_descriptions_similarity_one_witness :
  get_text_similarity (Some "!!!") (Some "???") == 1.
Proof.
  apply (proj1 stripped_descriptions_similarity_one); reflexivity.
Defined.

End ClaimsAttributes.

(* ------------------------------------------------------------------ *)
(** ** Bounds of the sequence-matching ratio *)

Module SequenceMatcherBounds.
Import SequenceMatcher.
Local Open Scope nat_scope.

Section Ranges.
Variables (a b : list ascii) (alo ahi blo bhi : nat).

(** A block [(i, j, k)] lies inside the ranges [a[alo:ahi]] and
    [b[blo:bhi]]. *)
Definition in_range (m : nat * nat * nat) : Prop :=
  let '(i, j, k) := m in alo <= i /\ i + k <= ahi /\ blo <= j /\ j + k <= bhi.

(** An entry [(j, v)] of [j2len] built at row [i]: a run of length [v]
    ending at [a[i]] and [b[j]] inside the ranges. *)
Definition run_ok (i : nat) (e : nat * nat) : Prop :=
  let '(j, v) := e in v + alo <= i + 1 /\ v + blo <= j + 1.

Lemma assoc_get_in : forall m k v, assoc_get m k = Some v -> In (k, v) m.
Proof.
  induction m as [|[k' v'] m IH]; intros k v H; simpl in H; [discriminate|].
  destruct (Nat.eqb_spec k k') as [->|]; [injection H as <-; left; auto|right; auto].
Qed.

Lemma inner_in_range :
  forall i js j2len best newj2len,
    alo <= i -> i < ahi ->
    (i = alo \/ Forall (run_ok (i - 1)) j2len) ->
    (i = alo -> j2len = []) ->
    Forall (run_ok i) newj2len -> in_range best ->
    in_range (fst (inner i blo bhi j2len js best newj2len)) /\
    Forall (run_ok i) (snd (inner i blo bhi j2len js best newj2len)).
Proof.
  intros i js. induction js as [|j js IH]; intros j2len best newj2len Hlo Hhi Hprev Hfirst Hnew Hbest;
    simpl; [auto|].
  destruct (Nat.ltb_spec j blo); [apply IH; auto|].
  destruct (Nat.leb_spec bhi j); [simpl; auto|].
  set (v := match j with 0 => 0 | S jm1 => match assoc_get j2len jm1 with Some v => v | None => 0 end end).
  assert (Hv : v + alo <= i /\ v + blo <= j).
  { subst v. destruct j as [|jm1]; [lia|].
    destruct (assoc_get j2len jm1) as [w|] eqn:E; [|lia].
    apply assoc_get_in in E.
    destruct Hprev as [->|Hprev].
    - rewrite Hfirst in E; [destruct E|reflexivity].
    - destruct (Nat.eq_dec i alo) as [Heq|Hne]; [rewrite Hfirst in E; auto; destruct E|].
      rewrite Forall_forall in Hprev. specialize (Hprev _ E). simpl in Hprev. lia. }
  assert (Hk : Forall (run_ok i) ((j, v + 1) :: newj2len)).
  { constructor; auto. simpl. lia. }
  destruct best as [[bi bj] bk].
  destruct (Nat.ltb_spec bk (v + 1)); apply IH; auto.
  simpl. lia.
Qed.

Lemma outer_in_range :
  forall n i j2len best,
    alo <= i -> i + n <= ahi ->
    (i = alo \/ Forall (run_ok (i - 1)) j2len) ->
    (i = alo -> j2len = []) ->
    in_range best ->
    in_range (outer a b i n blo bhi j2len best).
Proof.
  induction n as [|n IH]; intros i j2len best Hlo Hhi Hprev Hfirst Hbest; simpl; [auto|].
  destruct (inner_in_range i (b2j_get b (nth i a "000"%char)) j2len best [])
    as [Hb Hn]; auto; try lia.
  destruct (inner i blo bhi j2len (b2j_get b (nth i a "000"%char)) best []) as [best' n'].
  simpl in Hb, Hn.
  apply IH; auto; try lia.
  right. replace (S i - 1) with i by lia. auto.
Qed.

Lemma extend_left_in_range :
  forall fuel best, in_range best -> in_range (extend_left a b alo blo fuel best).
Proof.
  induction fuel as [|f IH]; intros [[bi bj] bk] H; simpl; [auto|].
  destruct ((alo <? bi) && (blo <? bj) && Ascii.eqb (at_ a (bi - 1)) (at_ b (bj - 1))) eqn:E;
    [|auto].
  apply andb_true_iff in E as [E _]. apply andb_true_iff in E as [E1 E2].
  apply Nat.ltb_lt in E1. apply Nat.ltb_lt in E2.
  apply IH. simpl in *. lia.
Qed.

Lemma extend_right_in_range :
  forall fuel best, in_range best -> in_range (extend_right a b ahi bhi fuel best).
Proof.
  induction fuel as [|f IH]; intros [[bi bj] bk] H; simpl; [auto|].
  destruct ((bi + bk <? ahi) && (bj + bk <? bhi)
            && Ascii.eqb (at_ a (bi + bk)) (at_ b (bj + bk))) eqn:E; [|auto].
  apply andb_true_iff in E as [E _]. apply andb_true_iff in E as [E1 E2].
  apply Nat.ltb_lt in E1. apply Nat.ltb_lt in E2.
  apply IH. simpl in *. lia.
Qed.

(** The block returned by [find_longest_match] lies inside its ranges. *)
Lemma find_longest_match_in_range :
  alo <= ahi -> blo <= bhi -> in_range (find_longest_match a b alo ahi blo bhi).
Proof.
  intros H1 H2. unfold find_longest_match.
  apply extend_right_in_range, extend_left_in_range, outer_in_range; auto; try lia.
  simpl. lia.
Qed.

End Ranges.

(** The matched characters of a pair of ranges are at most the length of
    each range. *)
Lemma matches_in_bound :
  forall a b fuel alo ahi blo bhi,
    alo <= ahi -> blo <= bhi ->
    matches_in a b fuel alo ahi blo bhi <= ahi - alo /\
    matches_in a b fuel alo ahi blo bhi <= bhi - blo.
Proof.
  intros a b fuel. induction fuel as [|f IH]; intros alo ahi blo bhi H1 H2; simpl; [lia|].
  pose proof (find_longest_match_in_range a b alo ahi blo bhi H1 H2) as Hr.
  destruct (find_longest_match a b alo ahi blo bhi) as [[i j] k]. simpl in Hr.
  destruct k as [|k']; [lia|].
  destruct ((alo <? i) && (blo <? j)) eqn:El.
  - apply andb_true_iff in El as [El1 El2]. apply Nat.ltb_lt in El1, El2.
    destruct (IH alo i blo j) as [L1 L2]; try lia.
    destruct ((i + S k' <? ahi) && (j + S k' <? bhi)) eqn:Er.
    + apply andb_true_iff in Er as [Er1 Er2]. apply Nat.ltb_lt in Er1, Er2.
      destruct (IH (i + S k') ahi (j + S k') bhi) as [R1 R2]; try lia.
    + lia.
  - destruct ((i + S k' <? ahi) && (j + S k' <? bhi)) eqn:Er.
    + apply andb_true_iff in Er as [Er1 Er2]. apply Nat.ltb_lt in Er1, Er2.
      destruct (IH (i + S k') ahi (j + S k') bhi) as [R1 R2]; try lia.
    + lia.
Qed.

Lemma matches_bound : forall a b, matches a b <= length a /\ matches a b <= length b.
Proof.
  intros a b. unfold matches.
  destruct (matches_in_bound a b (S (length a)) 0 (length a) 0 (length b)) as [H1 H2]; lia.
Qed.

End SequenceMatcherBounds.

(* ------------------------------------------------------------------ *)
(** ** Bounds of the similarity and of the scores *)

Lemma calculate_ratio_bounds :
  forall m len, (2 * m <= len)%nat -> 0 <= SequenceMatcher.calculate_ratio m len <= 1.
Proof.
  intros m len H. unfold SequenceMatcher.calculate_ratio.
  destruct len as [|len']; [split; discriminate|].
  assert (Hpos : 0 < inject_Z (Z.of_nat (S len'))) by (unfold Qlt; simpl; lia).
  split.
  - apply Qle_shift_div_l; auto. unfold Qle; simpl. lia.
  - apply Qle_shift_div_r; auto. unfold Qle; simpl. lia.
Qed.

Lemma text_similarity_in_unit :
  forall t1 t2, 0 <= get_text_similarity t1 t2 <= 1.
Proof.
  intros t1 t2. unfold get_text_similarity.
  destruct (negb (truthy t1) || negb (truthy t2)); [split; discriminate|].
  unfold SequenceMatcher.ratio. apply calculate_ratio_bounds.
  destruct (SequenceMatcherBounds.matches_bound
              (list_ascii_of_string (normalize t1)) (list_ascii_of_string (normalize t2))).
  lia.
Qed.

Lemma score_with_bonus_bounds :
  forall base d, 1 <= base -> base <= 10 -> 0 <= d <= 1 ->
    1 <= base + d * (3 # 2) /\ base + d * (3 # 2) <= 23 # 2.
Proof.
  intros base d H1 H2 [D0 D1].
  assert (0 <= d * (3 # 2)) by (apply Qmult_le_0_compat; auto; discriminate).
  assert (d * (3 # 2) <= 1 * (3 # 2)) by (apply Qmult_le_compat_r; auto; discriminate).
  split.
  - setoid_replace 1 with (1 + 0) at 1 by ring. apply Qplus_le_compat; auto.
  - setoid_replace (23 # 2) with (10 + 1 * (3 # 2)) by reflexivity.
    apply Qplus_le_compat; auto.
Qed.

Lemma match_score_cases :
  forall si wi,
    (normalize (Some (type wi)) <> normalize (get (s_type si) (get (s_category si) (Some ""%string)))
     /\ get_match_score si wi = -1) \/
    (normalize (Some (type wi)) = normalize (get (s_type si) (get (s_category si) (Some ""%string)))
     /\ 1 <= get_match_score si wi /\ get_match_score si wi <= 23 # 2).
Proof.
  intros si wi. unfold get_match_score.
  destruct (String.eqb_spec (normalize (Some (type wi)))
              (normalize (get (s_type si) (get (s_category si) (Some ""%string))))) as [E|E];
    [right|left; auto].
  split; auto. cbn [negb].
  pose proof (text_similarity_in_unit (description wi)
                (get (s_description si) (Some ""%string))) as HD.
  destruct (String.eqb _ (normalize (get (s_color si) _)));
  destruct (String.eqb _ (normalize (get (s_pattern si) _)));
  destruct (_ && _ && _);
  apply score_with_bonus_bounds; auto; unfold Qle; simpl; lia.
Qed.

Lemma inject_length_succ : forall {A} (x : A) l,
  inject_Z (Z.of_nat (length (x :: l))) == inject_Z (Z.of_nat (length l)) + 1.
Proof. intros. simpl length. rewrite Nat2Z.inj_succ, <- Z.add_1_r, inject_Z_plus. reflexivity. Qed.

Lemma penalize_bounds :
  forall item mset score,
    score - 2 * inject_Z (Z.of_nat (length mset)) <= penalize item mset score <= score.
Proof.
  intros item mset. induction mset as [|m rest IH]; intros score; simpl penalize.
  - change (inject_Z (Z.of_nat (length (@nil WardrobeItem)))) with (0 # 1). lra.
  - rewrite inject_length_succ.
    pose proof (text_similarity_in_unit (description item) (description m)) as [D0 D1].
    destruct (Qlt_le_dec (7 # 10) (get_text_similarity (description item) (description m))).
    + specialize (IH (score - get_text_similarity (description item) (description m) * 2)).
      lra.
    + specialize (IH score). assert (0 <= inject_Z (Z.of_nat (length rest)))
        by (unfold Qle; simpl; lia). lra.
Qed.

Lemma candidate_score_bounds :
  forall si mset item,
    get_match_score si item - 2 * inject_Z (Z.of_nat (length mset))
      <= candidate_score si mset item /\
    candidate_score si mset item <= get_match_score si item /\
    ((mset = [] \/ get_match_score si item <= 0) ->
     candidate_score si mset item = get_match_score si item).
Proof.
  intros si mset item. unfold candidate_score.
  destruct mset as [|m rest].
  - change (inject_Z (Z.of_nat (length (@nil WardrobeItem)))) with (0 # 1).
    repeat split; [lra|apply Qle_refl].
  - destruct (Qlt_le_dec 0 (get_match_score si item)) as [Hpos|Hneg].
    + pose proof (penalize_bounds item (m :: rest) (get_match_score si item)).
      repeat split; try lra.
      intros [Hm|Hm]; [discriminate|]. exfalso. apply (Qlt_not_le _ _ Hpos Hm).
    + assert (0 <= inject_Z (Z.of_nat (length (m :: rest)))) by (unfold Qle; simpl; lia).
      repeat split; [lra|apply Qle_refl].
Qed.

(* ------------------------------------------------------------------ *)
(** ** Errors and results of [find_best_match] *)

(** X4. [find_best_match] raises only [KeyError("type")], and exactly when
    the suggested item has no ["type"] key and some wardrobe item is still
    unused; with no ["type"] key and every item used it returns
    [(None, -1)]. *)
Theorem find_best_match_key_error :
  forall si W used mset,
    (forall e, find_best_match si W used mset = Err e ->
       e = KeyError "type"%string /\ s_type si = None /\
       exists it, In it W /\ unused used it = true) /\
    (s_type si = None -> (exists it, In it W /\ unused used it = true) ->
       find_best_match si W used mset = Err (KeyError "type"%string)) /\
    (s_type si = None -> (forall it, In it W -> unused used it = false) ->
       find_best_match si W used mset = Ok (None, -1)).
Proof.
  intros si W used mset. unfold find_best_match. split; [|split].
  - intros e H. split; [eapply find_best_match_loop_err; eauto|].
    eapply find_best_match_loop_err_cause; eauto.
  - intros Ht. apply (find_best_match_loop_no_type si W used mset None (-1) Ht).
  - intros Ht. apply (find_best_match_loop_no_type si W used mset None (-1) Ht).
Qed.

Lemma find_best_match_some :
  forall si W used mset bm s,
    find_best_match si W used mset = Ok (Some bm, s) ->
    exists t, s_type si = Some t /\ In bm W /\ unused used bm = true /\
              same_type t bm = true /\ s = candidate_score si mset bm /\ -1 < s.
Proof.
  intros si W used mset bm s H.
  destruct (s_type si) as [t|] eqn:Ht.
  - unfold find_best_match in H.
    destruct (find_best_match_loop_spec _ _ _ _ _ _ _ _ _ Ht H) as (_ & Hcase & _).
    destruct Hcase as [[? _]|(bm' & Hb & Hin & Hu & Hty & Hs & Hlt)]; [discriminate|].
    injection Hb as <-. exists t. repeat split; auto.
  - exfalso. unfold find_best_match in H.
    destruct (find_best_match_loop_unused _ _ _ _ _ _ _ _ H) as [?|(bm' & Hb & Hin & Hu)];
      [discriminate|].
    destruct (find_best_match_loop_no_type si W used mset None (-1) Ht) as [Herr _].
    rewrite Herr in H; [discriminate|]. eauto.
Qed.

Lemma match_items_entries :
  forall items W U objs ms t ms' U' t',
    match_items items W U objs ms t = Ok (ms', U', t') ->
    Forall (entry_ok W) ms -> Forall (entry_ok W) ms'.
Proof.
  induction items as [|item items IH]; intros W U objs ms t ms' U' t' H Hms; simpl in H.
  - inversion H; subst; auto.
  - destruct (find_best_match item W U objs) as [[b s]|e] eqn:Hf; simpl in H; [|discriminate].
    destruct b as [bm|]; apply IH in H; auto; apply Forall_app; split; auto; constructor; auto.
    + apply find_best_match_some in Hf as (ty & Ht & Hin & Hu & Hty & Hs & Hlt).
      right. exists bm. cbn [matched_entry mr_item_id mr_type mr_description mr_score
                               mr_suggestion suggestion_of sg_type].
      repeat split; auto.
      * unfold same_type in Hty. apply String.eqb_eq in Hty. rewrite Hty, Ht. reflexivity.
      * destruct (candidate_score_bounds item objs bm) as (_ & Hle & _).
        destruct (match_score_cases item bm) as [(_ & Hm)|(_ & _ & Hup)]; subst s.
        -- rewrite Hm in Hle. apply Qle_trans with (-1); auto. discriminate.
        -- apply Qle_trans with (get_match_score item bm); auto.
    + left. cbn. auto.
Qed.

Lemma match_outfits_entries :
  forall outs W U acc rs,
    match_outfits outs W U acc = Ok (Matches rs) ->
    Forall (fun r => Forall (entry_ok W) (matched_items r)) acc ->
    Forall (fun r => Forall (entry_ok W) (matched_items r)) rs.
Proof.
  induction outs as [|o outs IH]; intros W U acc rs H Hacc; simpl in H.
  - inversion H; subst; auto.
  - destruct (clothing_items o) as [items|]; [|discriminate].
    destruct (getitem "outfit_name" (outfit_name o)) as [name|e]; simpl in H; [|discriminate].
    destruct (match_items items W U [] [] 0) as [[[matched U'] total]|e] eqn:Hm;
      simpl in H; [|discriminate].
    apply IH in H; auto. apply Forall_app; split; auto. constructor; auto.
    simpl. eapply match_items_entries; eauto.
Qed.

Lemma match_outfit_with_wardrobe_entries :
  forall s W rs,
    match_outfit_with_wardrobe s W = Ok (Matches rs) ->
    forall r m, In r rs -> In m (matched_items r) -> entry_ok W m.
Proof.
  intros s W rs H r m Hr Hm. unfold match_outfit_with_wardrobe in H.
  destruct (outfit_recommendations s); [|discriminate].
  apply match_outfits_entries in H; [|constructor].
  rewrite Forall_forall in H. specialize (H r Hr). rewrite Forall_forall in H. auto.
Qed.

(* ------------------------------------------------------------------ *)
(** ** Selection of the best outfit *)

Lemma max_total_spec :
  forall rest best,
    exists pre post, best :: rest = pre ++ max_total best rest :: post /\
      (forall x, In x pre -> total_score x < total_score (max_total best rest)) /\
      (forall x, In x post -> total_score x <= total_score (max_total best rest)).
Proof.
  induction rest as [|x r IH]; intros best; simpl max_total.
  - exists [], []. simpl. repeat split; auto; intros ? [].
  - destruct (Qlt_le_dec (total_score best) (total_score x)) as [Hlt|Hle].
    + destruct (IH x) as (pre & post & Heq & Hpre & Hpost).
      assert (Hx : total_score x <= total_score (max_total x r)).
      { destruct pre as [|p pre]; simpl in Heq; injection Heq as Hx Hr.
        - rewrite <- Hx. apply Qle_refl.
        - subst p. apply Qlt_le_weak. apply Hpre. left. reflexivity. }
      exists (best :: pre), post. split; [simpl; f_equal; exact Heq|]. split; auto.
      intros y [<-|Hy]; auto. apply Qlt_le_trans with (total_score x); auto.
    + destruct (IH best) as (pre & post & Heq & Hpre & Hpost).
      destruct pre as [|p pre]; simpl in Heq; injection Heq as Hb Hr.
      * exists [], (x :: post). split; [simpl; f_equal; [exact Hb|f_equal; exact Hr]|].
        split; [intros ? []|]. intros y [<-|Hy]; auto. rewrite <- Hb. auto.
      * subst p. exists (best :: x :: pre), post.
        split; [simpl; do 2 f_equal; exact Hr|].
        split; auto. intros y [<-|[<-|Hy]]; auto.
        -- apply Hpre. left. reflexivity.
        -- apply Qle_lt_trans with (total_score best); auto. apply Hpre. left. reflexivity.
        -- apply Hpre. right. auto.
Qed.

Lemma highest_score_outfit_spec :
  forall rs best,
    highest_score_outfit (Matches rs) = Ok best ->
    exists pre post, rs = pre ++ best :: post /\
      (forall x, In x pre -> total_score x < total_score best) /\
      (forall x, In x post -> total_score x <= total_score best).
Proof.
  intros [|r rs] best H; simpl in H; [discriminate|].
  injection H as <-. apply max_total_spec.
Qed.

(* ------------------------------------------------------------------ *)
(** ** The recommended outfit *)

Lemma existsb_matched_ids :
  forall x ms,
    existsb (opt_string_eqb (Some x)) (map mr_item_id ms) = true <->
    In x (flat_map entry_ids ms).
Proof.
  intros x. induction ms as [|m ms IH]; simpl; [split; [discriminate|intros []]|].
  unfold entry_ids at 1. rewrite orb_true_iff, IH.
  destruct (mr_item_id m) as [i|]; simpl.
  - rewrite String.eqb_eq. split; [intros [->|H]; auto|intros [->|H]; auto].
  - split; [intros [H|H]; [discriminate|auto]|auto].
Qed.

Lemma recommend_from_suggestion_ok :
  forall uid occ s W rec,
    recommend_from_suggestion uid occ s W = Ok rec ->
    exists rs best,
      match_outfit_with_wardrobe s W = Ok (Matches rs) /\
      highest_score_outfit (Matches rs) = Ok best /\
      rec = {| user_id := uid; occasion := occ;
               outfit := filter (fun it => existsb (opt_string_eqb (Some (item_id it)))
                                             (map mr_item_id (matched_items best))) W |}.
Proof.
  intros uid occ s W rec H. unfold recommend_from_suggestion in H.
  destruct (negb (suggestion_truthy s)); [discriminate|].
  destruct (match_outfit_with_wardrobe s W) as [[d|rs]|e] eqn:Hm;
    cbv beta iota delta [bind] in H; try discriminate.
  destruct (highest_score_outfit (Matches rs)) as [best|e] eqn:Hh;
    cbv beta iota delta [bind] in H; [|discriminate].
  injection H as <-. eauto.
Qed.

Lemma matched_ids_in_wardrobe :
  forall s W rs r x,
    match_outfit_with_wardrobe s W = Ok (Matches rs) -> In r rs ->
    In x (matched_ids r) -> exists it, In it W /\ item_id it = x.
Proof.
  intros s W rs r x H Hr Hx. unfold matched_ids in Hx.
  apply in_flat_map in Hx as (m & Hm & Hx).
  destruct (match_outfit_with_wardrobe_entries s W rs H r m Hr Hm)
    as [(Hn & _)|(wi & Hin & Hid & _)]; unfold entry_ids in Hx.
  - rewrite Hn in Hx. destruct Hx.
  - rewrite Hid in Hx. destruct Hx as [<-|[]]. eauto.
Qed.

(* ------------------------------------------------------------------ *)
(** ** Errors of the service and of the endpoint *)

Lemma match_items_err_type :
  forall items W U objs ms t e,
    match_items items W U objs ms t = Err e -> e = KeyError "type"%string.
Proof. exact match_items_err. Qed.


Lemma recommend_from_suggestion_err :
  forall uid occ s W e,
    recommend_from_suggestion uid occ s W = Err e ->
    (suggestion_truthy s = false /\
     e = BadRequestError "outfit_suggestion" "Failed to generate outfit suggestion") \/
    (suggestion_truthy s = true /\
     (e = KeyError "type" \/ e = KeyError "outfit_name" \/
      e = StrIndicesError \/ e = MaxEmptyError))%string.
Proof.
  intros uid occ s W e H. unfold recommend_from_suggestion in H.
  destruct (suggestion_truthy s) eqn:Ht; simpl in H; [right; split; auto|left; injection H as <-; auto].
  destruct (match_outfit_with_wardrobe s W) as [[d|rs]|e'] eqn:Hm; simpl in H.
  - injection H as <-. auto.
  - destruct rs; simpl in H; [injection H as <-; auto|discriminate].
  - injection H as <-. unfold match_outfit_with_wardrobe in Hm.
    destruct (outfit_recommendations s); [|discriminate].
    apply match_outfits_err_keys in Hm as [->| ->]; auto.
Qed.

(* ------------------------------------------------------------------ *)
(** ** Properties of [normalize] *)

Lemma lower_char_alnum : forall c, is_alnum_lower c = true -> lower_char c = c.
Proof.
  intros c H. unfold is_alnum_lower in H. unfold lower_char.
  destruct ((65 <=? nat_of_ascii c) && (nat_of_ascii c <=? 90)) eqn:E; auto.
  apply andb_true_iff in E as [E1 E2]. apply Nat.leb_le in E1, E2.
  apply orb_true_iff in H as [H|H]; apply andb_true_iff in H as [H1 H2];
    apply Nat.leb_le in H1, H2; lia.
Qed.

Lemma strip_non_alnum_chars :
  forall s, Forall (fun c => is_alnum_lower c = true) (list_ascii_of_string (strip_non_alnum s)).
Proof.
  induction s as [|c s IH]; simpl; auto.
  destruct (is_alnum_lower c) eqn:E; simpl; auto.
Qed.

Lemma lower_of_alnum :
  forall s, Forall (fun c => is_alnum_lower c = true) (list_ascii_of_string s) -> lower s = s.
Proof.
  induction s as [|c s IH]; simpl; intros H; auto.
  inversion H; subst. rewrite lower_char_alnum, IH; auto.
Qed.

Lemma strip_of_alnum :
  forall s, Forall (fun c => is_alnum_lower c = true) (list_ascii_of_string s) ->
    strip_non_alnum s = s.
Proof.
  induction s as [|c s IH]; simpl; intros H; auto.
  inversion H as [|? ? Hc Hs]; subst. rewrite Hc, IH; auto.
Qed.

Lemma normalize_chars :
  forall t, Forall (fun c => is_alnum_lower c = true) (list_ascii_of_string (normalize t)).
Proof.
  intros t. unfold normalize. destruct (truthy t); [|simpl; auto].
  destruct t as [s|]; simpl; auto. apply strip_non_alnum_chars.
Qed.

Lemma lower_char_idem : forall c, lower_char (lower_char c) = lower_char c.
Proof.
  intros c. unfold lower_char at 2 3.
  destruct ((65 <=? nat_of_ascii c) && (nat_of_ascii c <=? 90)) eqn:E.
  - apply andb_true_iff in E as [E1 E2]. apply Nat.leb_le in E1, E2.
    unfold lower_char. rewrite nat_ascii_embedding by lia.
    destruct (Nat.leb_spec 65 (nat_of_ascii c + 32)); destruct (Nat.leb_spec (nat_of_ascii c + 32) 90);
      simpl; try lia; reflexivity.
  - unfold lower_char. rewrite E. reflexivity.
Qed.

Lemma lower_idem : forall s, lower (lower s) = lower s.
Proof. induction s as [|c s IH]; simpl; auto. rewrite lower_char_idem, IH. reflexivity. Qed.

Lemma truthy_lower : forall s, truthy (Some (lower s)) = truthy (Some s).
Proof. destruct s; reflexivity. Qed.

Lemma NoDup_map_filter :
  forall {A B} (g : A -> B) (f : A -> bool) l, NoDup (map g l) -> NoDup (map g (filter f l)).
Proof.
  intros A B g f. induction l as [|x l IH]; simpl; intros H; auto.
  inversion H as [|? ? Hx Hl]; subst.
  destruct (f x); simpl; auto. constructor; auto.
  intros Hin. apply Hx. apply in_map_iff in Hin as (y & Hy & Hin).
  apply filter_In in Hin as [Hin _]. rewrite <- Hy. apply in_map. auto.
Qed.

Lemma recommend_from_suggestion_outfit :
  forall uid occ s W rec,
    recommend_from_suggestion uid occ s W = Ok rec ->
    exists rs best,
      match_outfit_with_wardrobe s W = Ok (Matches rs) /\
      highest_score_outfit (Matches rs) = Ok best /\
      user_id rec = uid /\ occasion rec = occ /\
      (forall it, In it (outfit rec) <-> In it W /\ In (item_id it) (matched_ids best)) /\
      (NoDup (map item_id W) -> Permutation (map item_id (outfit rec)) (matched_ids best)).
Proof.
  intros uid occ s W rec H.
  destruct (recommend_from_suggestion_ok _ _ _ _ _ H) as (rs & best & Hm & Hh & ->).
  exists rs, best. cbn [user_id occasion outfit].
  assert (Hbest : In best rs).
  { destruct (highest_score_outfit_spec _ _ Hh) as (pre & post & -> & _).
    apply in_elt. }
  assert (Hmem : forall it, In it (filter (fun it => existsb (opt_string_eqb (Some (item_id it)))
                                                    (map mr_item_id (matched_items best))) W)
                            <-> In it W /\ In (item_id it) (matched_ids best)).
  { intros it. rewrite filter_In, existsb_matched_ids. reflexivity. }
  repeat split; auto; try (apply Hmem; auto).
  intros Hnd. apply NoDup_Permutation.
  - apply NoDup_map_filter. auto.
  - apply (NoDup_flat_map_member matched_ids rs best); auto.
    exact (proj2 (match_outfit_with_wardrobe_spec _ _ _ Hm)).
  - intros x. rewrite in_map_iff. split.
    + intros (it & <- & Hin). apply Hmem in Hin. tauto.
    + intros Hx. destruct (matched_ids_in_wardrobe s W rs best x Hm Hbest Hx) as (it & Hin & Hid).
      exists it. split; auto. apply Hmem. rewrite Hid. auto.
Qed.

Lemma recommend_outfit_errors :
  forall msgs uid occ s W c e m,
    recommend_outfit msgs uid occ s W = ErrorResponse c e m ->
    (c = 400%nat /\ suggestion_truthy s = false /\ e = "outfit_suggestion" /\
     m = "Failed to generate outfit suggestion")%string \/
    (c = 500%nat /\ suggestion_truthy s = true /\ e = "recommend_outfit" /\
     In m (map (fun d => "Error generating outfit recommendation: " ++ d)
             ["'type'"; "'outfit_name'"; str_indices_msg msgs; max_empty_msg msgs]))%string.
Proof.
  intros msgs uid occ s W c e m H. unfold recommend_outfit in H.
  destruct (recommend_from_suggestion uid occ s W) as [rec|ex] eqn:Hr; [discriminate|].
  apply recommend_from_suggestion_err in Hr
    as [(Ht & ->) | (Ht & [-> | [-> | [-> | ->]]])]; injection H as <- <- <-;
    [left|right..]; repeat split; auto; simpl; auto 6.
Qed.

Lemma same_type_score_at_least_one :
  forall si t it, s_type si = Some t -> same_type t it = true -> 1 <= get_match_score si it.
Proof.
  intros si t it Ht Hty. unfold same_type in Hty. apply String.eqb_eq in Hty.
  destruct (match_score_cases si it) as [(Hne & _)|(_ & H1 & _)]; auto.
  exfalso. apply Hne. rewrite Ht. exact Hty.
Qed.

Lemma find_best_match_empty_set :
  forall si t W used b s,
    s_type si = Some t ->
    find_best_match si W used [] = Ok (b, s) ->
    (b = None <-> forall it, In it W -> unused used it = true -> same_type t it = false) /\
    (b <> None -> 1 <= s).
Proof.
  intros si t W used b s Ht H. unfold find_best_match in H.
  destruct (find_best_match_loop_spec _ _ _ _ _ _ _ _ _ Ht H) as (_ & Hcase & Hmax).
  split; [split|].
  - intros -> it Hin Hu. destruct (same_type t it) eqn:Hty; auto. exfalso.
    destruct Hcase as [(_ & ->)|(bm & Hb & _)]; [|discriminate].
    pose proof (Hmax it Hin Hu Hty) as Hle. unfold candidate_score in Hle.
    pose proof (same_type_score_at_least_one si t it Ht Hty).
    assert (Hc : 1 <= -1) by (apply Qle_trans with (get_match_score si it); auto).
    unfold Qle in Hc; simpl in Hc; lia.
  - intros Hall. destruct Hcase as [(-> & _)|(bm & -> & Hin & Hu & Hty & _)]; auto.
    rewrite (Hall bm Hin Hu) in Hty. discriminate.
  - intros Hb. destruct Hcase as [(-> & _)|(bm & -> & Hin & Hu & Hty & -> & _)];
      [contradiction|].
    apply (same_type_score_at_least_one si t bm Ht Hty).
Qed.

Lemma normalize_idem : forall t, normalize (Some (normalize t)) = normalize t.
Proof.
  intros t. unfold normalize at 1.
  destruct (truthy (Some (normalize t))) eqn:E.
  - rewrite lower_of_alnum by apply normalize_chars.
    apply strip_of_alnum, normalize_chars.
  - destruct (normalize t); [reflexivity|discriminate].
Qed.

Lemma normalize_lower : forall s, normalize (Some (lower s)) = normalize (Some s).
Proof.
  intros s. unfold normalize. rewrite truthy_lower, lower_idem. reflexivity.
Qed.

(* ------------------------------------------------------------------ *)
(** ** Further properties of the matcher, the service and the endpoint *)

Section Extras.
Import Samples.
Local Open Scope string_scope.

(** X1. The description similarity [get_text_similarity] always lies in
    [0, 1]. *)
Theorem get_text_similarity_bounds :
  forall t1 t2, 0 <= get_text_similarity t1 t2 <= 1.
Proof. exact text_similarity_in_unit. Qed.

(** X2. [get_match_score] is -1 for a type mismatch and lies in
    [1, 11.5] for a type match. *)
Theorem get_match_score_range :
  forall si wi,
    (normalize (Some (type wi)) <> normalize (get (s_type si) (get (s_category si) (Some "")))
     /\ get_match_score si wi = -1) \/
    (normalize (Some (type wi)) = normalize (get (s_type si) (get (s_category si) (Some "")))
     /\ 1 <= get_match_score si wi /\ get_match_score si wi <= 23 # 2).
Proof. exact match_score_cases. Qed.

(** X3. The similarity penalty of [find_best_match] never raises a score
    and lowers it by at most 2 per item already in the matching set; a
    score is left unchanged when the matching set is empty or the score is
    not positive. *)
Theorem candidate_score_penalty_bounds :
  forall si mset item,
    get_match_score si item - 2 * inject_Z (Z.of_nat (length mset))
      <= candidate_score si mset item /\
    candidate_score si mset item <= get_match_score si item /\
    ((mset = [] \/ get_match_score si item <= 0) ->
     candidate_score si mset item = get_match_score si item).
Proof. exact candidate_score_bounds. Qed.

Lemma candidate_score_penalty_bounds_witness :
  candidate_score top_slot [] white_top = get_match_score top_slot white_top.
Proof.
  apply (proj2 (proj2 (candidate_score_penalty_bounds top_slot [] white_top))). left. reflexivity.
Defined.

Lemma find_best_match_key_error_witness :
  find_best_match category_only_slot [white_top] [] [] = Err (KeyError "type").
Proof.
  apply (proj1 (proj2 (find_best_match_key_error category_only_slot [white_top] [] []))).
  - reflexivity.
  - exists white_top. split; [left; reflexivity|reflexivity].
Defined.

(** X5. Every entry of a result of the matcher is either the no-match
    sentinel (no id, score -1, description "No match found") or a wardrobe
    item of the suggested normalized type, copied with its id, type and
    description, with a score in (-1, 11.5]. *)
Theorem matched_entries_well_formed :
  forall s W rs,
    match_outfit_with_wardrobe s W = Ok (Matches rs) ->
    forall r m, In r rs -> In m (matched_items r) -> entry_ok W m.
Proof. exact match_outfit_with_wardrobe_entries. Qed.

Lemma matched_entries_well_formed_witness :
  match match_outfit_with_wardrobe (suggestion [one_outfit "o" three_slots])
          [plain_top; plain_bottom; plain_shoes] with
  | Ok (Matches (r :: _)) => forall m, In m (matched_items r) ->
                              entry_ok [plain_top; plain_bottom; plain_shoes] m
  | _ => False
  end.
Proof.
  destruct (match_outfit_with_wardrobe (suggestion [one_outfit "o" three_slots])
              [plain_top; plain_bottom; plain_shoes])
    as [[e|[|r rs]]|e] eqn:E; try (vm_compute in E; discriminate).
  intros m Hm. apply (matched_entries_well_formed _ _ _ E r m); simpl; auto.
Defined.

(** X6. A result of the matcher has one outfit per candidate outfit, in
    order, with the candidate's name, and one entry per clothing item, in
    order, each echoing its suggested item. *)
Theorem match_result_follows_suggestion :
  forall s W rs,
    match_outfit_with_wardrobe s W = Ok (Matches rs) ->
    exists outs, outfit_recommendations s = Some outs /\
      Forall2 (fun o r => exists items, clothing_items o = Some items /\
                 outfit_name o = Some (outfit_name_r r) /\
                 map mr_suggestion (matched_items r) = map suggestion_of items) outs rs.
Proof.
  intros s W rs H. unfold match_outfit_with_wardrobe in H.
  destruct (outfit_recommendations s) as [outs|]; [|discriminate].
  exists outs. split; auto.
  destruct (match_outfits_shape _ _ _ _ _ H) as (new & -> & Hall). exact Hall.
Qed.

Lemma match_result_follows_suggestion_witness :
  match match_outfit_with_wardrobe (suggestion [one_outfit "o" three_slots; one_outfit "p" [top_slot]])
          [plain_top; plain_bottom; plain_shoes] with
  | Ok (Matches rs) =>
      exists outs, outfit_recommendations
                     (suggestion [one_outfit "o" three_slots; one_outfit "p" [top_slot]]) = Some outs /\
      Forall2 (fun o r => exists items, clothing_items o = Some items /\
                 outfit_name o = Some (outfit_name_r r) /\
                 map mr_suggestion (matched_items r) = map suggestion_of items) outs rs
  | _ => False
  end.
Proof.
  destruct (match_outfit_with_wardrobe
              (suggestion [one_outfit "o" three_slots; one_outfit "p" [top_slot]])
              [plain_top; plain_bottom; plain_shoes])
    as [[e|rs]|e] eqn:E; try (vm_compute in E; discriminate).
  exact (match_result_follows_suggestion _ _ _ E).
Defined.

(** X7. The outfit selected by [max] over the matched outfits has the
    greatest total score, and it is the first outfit with that score:
    every outfit before it has a strictly smaller total, every outfit after
    it a total no greater. *)
Theorem highest_score_outfit_first_maximum :
  forall rs best,
    highest_score_outfit (Matches rs) = Ok best ->
    exists pre post, rs = (pre ++ best :: post)%list /\
      (forall x, In x pre -> total_score x < total_score best) /\
      (forall x, In x post -> total_score x <= total_score best).
Proof. exact highest_score_outfit_spec. Qed.

Lemma highest_score_outfit_first_maximum_witness :
  match highest_score_outfit
          (Matches [{| outfit_name_r := Some "o"; total_score := 7; matched_items := [] |};
                    {| outfit_name_r := Some "p"; total_score := 9; matched_items := [] |};
                    {| outfit_name_r := Some "q"; total_score := 9; matched_items := [] |}]) with
  | Ok best =>
      exists pre post,
        [{| outfit_name_r := Some "o"; total_score := 7; matched_items := [] |};
         {| outfit_name_r := Some "p"; total_score := 9; matched_items := [] |};
         {| outfit_name_r := Some "q"; total_score := 9; matched_items := [] |}]
        = (pre ++ best :: post)%list /\
        (forall x, In x pre -> total_score x < total_score best) /\
        (forall x, In x post -> total_score x <= total_score best)
  | Err _ => False
  end.
Proof.
  destruct (highest_score_outfit
              (Matches [{| outfit_name_r := Some "o"; total_score := 7; matched_items := [] |};
                        {| outfit_name_r := Some "p"; total_score := 9; matched_items := [] |};
                        {| outfit_name_r := Some "q"; total_score := 9; matched_items := [] |}]))
    as [best|e] eqn:E; [|vm_compute in E; discriminate].
  exact (highest_score_outfit_first_maximum _ _ E).
Defined.

(** X8. A recommendation returned by the service keeps the user id and
    the occasion, and its outfit is the list of the wardrobe items whose id
    is matched in the outfit chosen by [max] over the result of the
    matcher; when the wardrobe ids are distinct, the outfit holds exactly
    one item per matched slot of that outfit. *)
Theorem recommended_outfit_is_best_match :
  forall uid occ s W rec,
    recommend_from_suggestion uid occ s W = Ok rec ->
    exists rs best,
      match_outfit_with_wardrobe s W = Ok (Matches rs) /\
      highest_score_outfit (Matches rs) = Ok best /\
      user_id rec = uid /\ occasion rec = occ /\
      (forall it, In it (outfit rec) <-> In it W /\ In (item_id it) (matched_ids best)) /\
      (NoDup (map item_id W) -> Permutation (map item_id (outfit rec)) (matched_ids best)).
Proof. exact recommend_from_suggestion_outfit. Qed.

Lemma recommended_outfit_is_best_match_witness :
  match recommend_from_suggestion "u" "networking event" (suggestion [one_outfit "o" three_slots])
          [plain_top; plain_bottom; plain_shoes] with
  | Ok rec =>
      exists rs best,
        match_outfit_with_wardrobe (suggestion [one_outfit "o" three_slots])
          [plain_top; plain_bottom; plain_shoes] = Ok (Matches rs) /\
        highest_score_outfit (Matches rs) = Ok best /\
        user_id rec = "u" /\ occasion rec = "networking event" /\
        (forall it, In it (outfit rec) <->
                    In it [plain_top; plain_bottom; plain_shoes] /\ In (item_id it) (matched_ids best)) /\
        (NoDup (map item_id [plain_top; plain_bottom; plain_shoes]) ->
         Permutation (map item_id (outfit rec)) (matched_ids best))
  | Err _ => False
  end.
Proof.
  destruct (recommend_from_suggestion "u" "networking event" (suggestion [one_outfit "o" three_slots])
              [plain_top; plain_bottom; plain_shoes]) as [rec|e] eqn:E;
    [|vm_compute in E; discriminate].
  exact (recommended_outfit_is_best_match _ _ _ _ _ E).
Defined.

(** X9. Given the parsed suggestion (a JSON object whose
    ["outfit_recommendations"], when present, is a list of objects whose
    ["clothing_items"], when present, is a list of objects with string or
    null values), the endpoint answers 400 exactly when the suggestion is
    empty (falsy), with the service's bad-request error; every other error
    is a 500 from [recommend_outfit] whose message is the prefix
    "Error generating outfit recommendation: " followed by [str(e)] of one
    of four exceptions: [KeyError('type')], [KeyError('outfit_name')], the
    [TypeError] of indexing a string, or the [ValueError] of [max] on an
    empty sequence, in the wording of the running interpreter. *)
Theorem recommend_outfit_error_statuses :
  forall msgs uid occ s W,
    (suggestion_truthy s = false ->
     recommend_outfit msgs uid occ s W
       = ErrorResponse 400 "outfit_suggestion" "Failed to generate outfit suggestion") /\
    (forall c e m,
       recommend_outfit msgs uid occ s W = ErrorResponse c e m ->
       (c = 400%nat /\ suggestion_truthy s = false /\ e = "outfit_suggestion" /\
        m = "Failed to generate outfit suggestion") \/
       (c = 500%nat /\ suggestion_truthy s = true /\ e = "recommend_outfit" /\
        In m (map (fun d => "Error generating outfit recommendation: " ++ d)
                ["'type'"; "'outfit_name'"; str_indices_msg msgs; max_empty_msg msgs]))).
Proof.
  intros msgs uid occ s W. split.
  - intros Ht. unfold recommend_outfit, recommend_from_suggestion. rewrite Ht. reflexivity.
  - apply recommend_outfit_errors.
Qed.

Lemma recommend_outfit_error_statuses_witness :
  recommend_outfit python_3_11 "u" "networking event"
    {| outfit_recommendations := None; has_other_keys := false |} [white_top]
  = ErrorResponse 400 "outfit_suggestion" "Failed to generate outfit suggestion" /\
  (forall c e m,
     recommend_outfit python_3_11 "u" "networking event" (suggestion []) [white_top]
       = ErrorResponse c e m ->
     (c = 400%nat /\ suggestion_truthy (suggestion []) = false /\ e = "outfit_suggestion" /\
      m = "Failed to generate outfit suggestion") \/
     (c = 500%nat /\ suggestion_truthy (suggestion []) = true /\ e = "recommend_outfit" /\
      In m (map (fun d => "Error generating outfit recommendation: " ++ d)
              ["'type'"; "'outfit_name'"; str_indices_msg python_3_11;
               max_empty_msg python_3_11]))).
Proof.
  split.
  - apply (proj1 (recommend_outfit_error_statuses python_3_11 "u" "networking event"
                    {| outfit_recommendations := None; has_other_keys := false |} [white_top])).
    reflexivity.
  - exact (proj2 (recommend_outfit_error_statuses python_3_11 "u" "networking event"
                    (suggestion []) [white_top])).
Defined.

(** X10. Two malformed suggestions that the service does not reject
    become server errors: an empty list of candidate outfits gives a 500
    with the [ValueError] of [max], and a non-empty suggestion for which
    the matcher returns its error dict (no ["outfit_recommendations"] key,
    or an outfit without ["clothing_items"]) gives a 500 with the
    [TypeError] of indexing the string key ["error"], each in the wording
    of the running interpreter. *)
Theorem recommend_outfit_malformed_is_server_error :
  forall msgs uid occ s W,
    (outfit_recommendations s = Some [] ->
     recommend_outfit msgs uid occ s W
       = ErrorResponse 500 "recommend_outfit"
           ("Error generating outfit recommendation: " ++ max_empty_msg msgs)) /\
    (suggestion_truthy s = true ->
     forall d, match_outfit_with_wardrobe s W = Ok (ErrorDict d) ->
     recommend_outfit msgs uid occ s W
       = ErrorResponse 500 "recommend_outfit"
           ("Error generating outfit recommendation: " ++ str_indices_msg msgs)).
Proof.
  intros msgs uid occ s W. unfold recommend_outfit, recommend_from_suggestion. split.
  - intros Ho. unfold suggestion_truthy, match_outfit_with_wardrobe. rewrite Ho. reflexivity.
  - intros Ht d Hm. rewrite Ht, Hm. reflexivity.
Qed.

Lemma recommend_outfit_malformed_is_server_error_witness :
  recommend_outfit python_3_11 "u" "networking event"
    {| outfit_recommendations := None; has_other_keys := true |} [white_top]
  = ErrorResponse 500 "recommend_outfit"
      "Error generating outfit recommendation: string indices must be integers, not 'str'".
Proof.
  apply (proj2 (recommend_outfit_malformed_is_server_error python_3_11 "u" "networking event"
                  {| outfit_recommendations := None; has_other_keys := true |} [white_top]))
    with (d := "Invalid outfit suggestion format"); reflexivity.
Defined.

(** X11. With an empty matching set (the first slot of every outfit),
    [find_best_match] returns no item exactly when no unused wardrobe item
    has the suggested normalized type, and a returned item scores at
    least 1. *)
Theorem find_best_match_first_slot :
  forall si t W used b s,
    s_type si = Some t ->
    find_best_match si W used [] = Ok (b, s) ->
    (b = None <-> forall it, In it W -> unused used it = true -> same_type t it = false) /\
    (b <> None -> 1 <= s).
Proof. exact find_best_match_empty_set. Qed.

Lemma find_best_match_first_slot_witness :
  match find_best_match top_slot [plain_bottom; white_top] [] [] with
  | Ok (b, s) =>
      (b = None <-> forall it, In it [plain_bottom; white_top] -> unused [] it = true ->
                               same_type (Some "top") it = false) /\
      (b <> None -> 1 <= s)
  | Err _ => False
  end.
Proof.
  destruct (find_best_match top_slot [plain_bottom; white_top] [] []) as [[b s]|e] eqn:E;
    [|vm_compute in E; discriminate].
  exact (find_best_match_first_slot top_slot (Some "top") _ _ _ _ eq_refl E).
Defined.

(** X12. [normalize] returns only characters of [a-z0-9], is idempotent,
    and ignores letter case. *)
Theorem normalize_lowercase_alnum :
  (forall t, Forall (fun c => is_alnum_lower c = true) (list_ascii_of_string (normalize t))) /\
  (forall t, normalize (Some (normalize t)) = normalize t) /\
  (forall s, normalize (Some (lower s)) = normalize (Some s)).
Proof.
  split; [|split].
  - exact normalize_chars.
  - exact normalize_idem.
  - exact normalize_lower.
Qed.

End Extras.
